(** * The Buildkite-Forgejo webhook bridge

    A shallow embedding of [main.go]: the request handler [webhookHandler]
    and the downstream call [triggerBuild], with the Go values they work on.

    - Go strings are byte strings; Rocq's [string] (a list of 8-bit
      [ascii]) stands for them, [len] counts bytes and [s[:n]] cuts bytes.
    - The handler talks to the outside world: it reads the request body,
      writes log lines and issues one outbound HTTP call.  These effects
      are recorded in a trace of [event]s; a run either returns or panics.
    - What the runtime answers is an input of the run: the bytes read from
      the request body sit in the request, the answer of [client.Do] is the
      argument [downstream].  The pure library functions [json.Unmarshal]
      and [url.Parse] are taken as an interface ([Externals]).
    - The process-wide variables [buildkiteOrg], [buildkiteToken], [port]
      and [logVerbose] are read-only after startup; they are the record
      [Config]. *)

From Stdlib Require Import ZArith String Ascii DecimalString.
From stdpp Require Import base option list gmap strings sorting.

(** ** Go values *)

(** An [error] is represented by its message, which is all [%v] and [%w]
    ever show of it. *)
Definition error : Type := string.

(** A Go result pair [(value, err)]. *)
Inductive result (A : Type) : Type :=
  | Ok (a : A)
  | Err (err : error).
Arguments Ok {A} a.
Arguments Err {A} err.

Definition len (s : string) : nat := String.length s.

(** [fmt]'s verb [%d] on an [int]. *)
Definition fmt_d (n : Z) : string := NilZero.string_of_int (Z.to_int n).

(** [strings.HasPrefix(s, prefix)]:
    [len(s) >= len(prefix) && s[:len(prefix)] == prefix]. *)
Definition strings_HasPrefix (s prefix : string) : bool :=
  bool_decide (len prefix ≤ len s) && String.eqb (substring 0 (len prefix) s) prefix.

(** [strings.TrimPrefix(s, prefix)]: [s[len(prefix):]] when [s] has the
    prefix, [s] itself otherwise. *)
Definition strings_TrimPrefix (s prefix : string) : string :=
  if strings_HasPrefix s prefix
  then substring (len prefix) (len s - len prefix) s
  else s.

(** ** JSON documents

    [encoding/json] is modelled up to the layout of the text: a document is
    its tree.  Only strings and objects occur in what the bridge sends. *)
#[warnings="-register-all"]
Inductive json : Type :=
  | JString (s : string)
  | JObject (members : list (string * json)).

(** ** The data model of [main.go] *)

Module Repository.
Record t : Type := { Name : string; FullName : string }.
End Repository.

Module HeadCommit.
Module Author.
Record t : Type := { Name : string; Email : string; Username : string }.
End Author.
Record t : Type := { ID : string; Message : string; Author : Author.t }.
End HeadCommit.

Module Pusher.
Record t : Type := { Username : string }.
End Pusher.

(** [ForgejoWebhook]: the incoming webhook from Forgejo/Gitea. *)
Record ForgejoWebhook : Type := {
  Ref : string;
  Repository : Repository.t;
  HeadCommit : HeadCommit.t;
  Pusher : Pusher.t;
}.

(** The zero value, what [var webhook ForgejoWebhook] declares. *)
Definition zero_ForgejoWebhook : ForgejoWebhook :=
  {| Ref := "";
     Repository := {| Repository.Name := ""; Repository.FullName := "" |};
     HeadCommit :=
       {| HeadCommit.ID := ""; HeadCommit.Message := "";
          HeadCommit.Author :=
            {| HeadCommit.Author.Name := ""; HeadCommit.Author.Email := "";
               HeadCommit.Author.Username := "" |} |};
     Pusher := {| Pusher.Username := "" |} |}.

(** [BuildkiteAuthor]: the commit author. *)
Record BuildkiteAuthor : Type := { Name : string; Email : string }.

(** [BuildkitePayload]: the payload to send to Buildkite.  [Author] is a
    pointer ([None] is [nil]) and [Env] a map; both are tagged
    [omitempty]. *)
Record BuildkitePayload : Type := {
  Commit : string;
  Branch : string;
  Message : string;
  Author : option BuildkiteAuthor;
  Env : gmap string string;
}.

(** The package-level configuration variables. *)
Record Config : Type := {
  buildkiteOrg : string;
  buildkiteToken : string;
  port : string;
  logVerbose : bool;
}.

(** ** [json.Marshal] on the types above *)

(** A map is written as an object whose keys are sorted. *)
Definition key_le (x y : string * string) : Prop := String.leb x.1 y.1.

Definition marshal_map (m : gmap string string) : json :=
  JObject (prod_map id JString <$> merge_sort key_le (map_to_list m)).

Definition marshal_BuildkiteAuthor (a : BuildkiteAuthor) : json :=
  JObject [("name", JString (Name a)); ("email", JString (Email a))]%string.

(** Struct fields come in declaration order under their tag names; an
    [omitempty] field is left out when it is a nil pointer or a map of
    length zero.  Marshalling these types cannot fail. *)
Definition json_Marshal (p : BuildkitePayload) : json :=
  JObject
    ([("commit", JString (Commit p));
      ("branch", JString (Branch p));
      ("message", JString (Message p))]%string
     ++ match Author p with
        | Some a => [("author"%string, marshal_BuildkiteAuthor a)]
        | None => []
        end
     ++ (if decide (size (Env p) = 0) then []
         else [("env"%string, marshal_map (Env p))])).

(** ** HTTP *)

(** The inbound [*http.Request] as the handler uses it: [r.Method],
    [r.URL.Path], and what [io.ReadAll(r.Body)] yields. *)
Record Request : Type := {
  Method : string;
  URL_Path : string;
  Body : result string;
}.

(** The outbound request handed to [client.Do]. *)
Record OutboundRequest : Type := {
  out_Method : string;
  out_URL : string;
  out_Header : gmap string string;
  out_Body : json;
}.

(** The downstream [*http.Response]: [resp.StatusCode] and the bytes of
    [resp.Body] ([respBody, _ := io.ReadAll(resp.Body)]). *)
Record DownstreamResponse : Type := {
  StatusCode : Z;
  respBody : string;
}.

Definition http_MethodPost : string := "POST".
Definition http_StatusOK : Z := 200.
Definition http_StatusCreated : Z := 201.
Definition http_StatusBadRequest : Z := 400.
Definition http_StatusMethodNotAllowed : Z := 405.
Definition http_StatusInternalServerError : Z := 500.

(** What the handler writes to its [http.ResponseWriter]. *)
Inductive Response : Type :=
  | PlainText (code : Z) (message : string)
      (** [http.Error(w, message, code)] *)
  | JSON (code : Z) (object : gmap string string)
      (** [Content-Type: application/json], [w.WriteHeader(code)],
          [json.NewEncoder(w).Encode(object)] *).

Definition http_Error (message : string) (code : Z) : Response :=
  PlainText code message.

Definition status (resp : Response) : Z :=
  match resp with
  | PlainText code _ => code
  | JSON code _ => code
  end.

Definition Header_Set (key value : string) (req : OutboundRequest) : OutboundRequest :=
  {| out_Method := out_Method req;
     out_URL := out_URL req;
     out_Header := <[key := value]> (out_Header req);
     out_Body := out_Body req |}.

(** ** The library functions the bridge relies on *)

Class Externals : Type := {
  (** [json.Unmarshal(data, &v)]: the decoded value of [v], or an error. *)
  json_Unmarshal : string → ForgejoWebhook → result ForgejoWebhook;
  (** [url.Parse(rawURL)]: the error, if the text is no URL. *)
  url_Parse : string → option error;
}.

(** [http.NewRequest(method, url, body)] fails exactly when the URL does
    not parse (the method is the constant ["POST"]). *)
Definition http_NewRequest `{Externals} (method url : string) (body : json)
    : result OutboundRequest :=
  match url_Parse url with
  | Some err => Err err
  | None =>
      Ok {| out_Method := method; out_URL := url; out_Header := ∅; out_Body := body |}
  end.

(** ** Effects *)

(** An operand of [log.Printf]. *)
Inductive operand : Type :=
  | Str (s : string)
  | Doc (j : json).

Inductive event : Type :=
  | ReadAll                                   (** [io.ReadAll(r.Body)] *)
  | Unmarshal (data : string)                 (** [json.Unmarshal(data, &webhook)] *)
  | Printf (format : string) (args : list operand)   (** [log.Printf] *)
  | Do (req : OutboundRequest)                (** [client.Do(req)] *).

(** A run ends by returning or by a run-time panic. *)
Inductive outcome (A : Type) : Type :=
  | Return (a : A)
  | Panic (msg : string).
Arguments Return {A} a.
Arguments Panic {A} msg.

(** A computation: the events it caused, in order, and how it ended. *)
Definition M (A : Type) : Type := list event * outcome A.

#[global] Instance M_ret : MRet M := λ A a, ([], Return a).

#[global] Instance M_bind : MBind M := λ A B f m,
  match m with
  | (t, Return a) => let '(t', r) := f a in (t ++ t', r)
  | (t, Panic msg) => (t, Panic msg)
  end.

Definition emit (e : event) : M unit := ([e], Return tt).

Definition panic {A : Type} (msg : string) : M A := ([], Panic msg).

Definition trace {A : Type} (m : M A) : list event := m.1.

Definition ended {A : Type} (m : M A) : outcome A := m.2.

Definition log_Printf (format : string) (args : list operand) : M unit :=
  emit (Printf format args).

(** [if cond { body }] for a body that is run for its effects. *)
Definition when (cond : bool) (body : M unit) : M unit :=
  if cond then body else mret tt.

(** The slice expression [s[:n]]: a run-time panic when [n > len(s)]. *)
Definition slice_to (s : string) (n : nat) : M string :=
  if decide (n ≤ len s)
  then mret (substring 0 n s)
  else panic "slice bounds out of range".

Definition io_ReadAll (r : Request) : M (result string) :=
  emit ReadAll;; mret (Body r).

Definition client_Do (downstream : result DownstreamResponse) (req : OutboundRequest)
    : M (result DownstreamResponse) :=
  emit (Do req);; mret downstream.

(** The outbound calls of a trace. *)
Definition outbound_calls (t : list event) : list OutboundRequest :=
  omap (λ e, match e with Do req => Some req | _ => None end) t.

(** The log lines of a trace. *)
Definition log_lines (t : list event) : list (string * list operand) :=
  omap (λ e, match e with Printf f args => Some (f, args) | _ => None end) t.

(** ** [triggerBuild] *)

Section Bridge.
Context `{Externals}.
Variable cfg : Config.

Local Open Scope string_scope.

(** The local [url] of [triggerBuild]:
    [fmt.Sprintf("https://api.buildkite.com/v2/organizations/%s/pipelines/%s/builds",
    buildkiteOrg, pipeline)]. *)
Definition url (pipeline : string) : string :=
  "https://api.buildkite.com/v2/organizations/" +:+ buildkiteOrg cfg
    +:+ "/pipelines/" +:+ pipeline +:+ "/builds".

(** The local [payload] of [triggerBuild]. *)
Definition payload (branch commit message : string) (webhook : ForgejoWebhook)
    : BuildkitePayload :=
  {| Commit := commit;
     Branch := branch;
     Message := message;
     Author :=
       Some {| Name := HeadCommit.Author.Name (HeadCommit.Author (HeadCommit webhook));
               Email := HeadCommit.Author.Email (HeadCommit.Author (HeadCommit webhook)) |};
     Env :=
       {[ "FORGEJO_PUSHER" := Pusher.Username (Pusher webhook);
          "FORGEJO_REPO" := Repository.FullName (Repository webhook);
          "FORGEJO_REPO_NAME" := Repository.Name (Repository webhook) ]} |}.

(** [triggerBuild] returns an [error]; [None] is [nil]. *)
Definition triggerBuild (pipeline branch commit message : string)
    (webhook : ForgejoWebhook) (downstream : result DownstreamResponse)
    : M (option error) :=
  let url := url pipeline in
  when (logVerbose cfg)
    (log_Printf "🔍 Debug: buildkiteOrg='%s', pipeline='%s'"
       [Str (buildkiteOrg cfg); Str pipeline];;
     log_Printf "🔍 Debug: URL='%s'" [Str url]);;
  let payload := payload branch commit message webhook in
  let jsonData := json_Marshal payload in
  when (logVerbose cfg)
    (log_Printf "📤 Buildkite payload: %s" [Doc jsonData]);;
  match http_NewRequest http_MethodPost url jsonData with
  | Err err => mret (Some ("failed to create request: " +:+ err))
  | Ok req =>
      let req := Header_Set "Authorization" ("Bearer " +:+ buildkiteToken cfg) req in
      let req := Header_Set "Content-Type" "application/json" req in
      resp ← client_Do downstream req;
      match resp with
      | Err err => mret (Some ("request failed: " +:+ err))
      | Ok resp =>
          let respBody := respBody resp in
          if negb (StatusCode resp =? http_StatusCreated)%Z
             && negb (StatusCode resp =? http_StatusOK)%Z
          then
            mret (Some ("buildkite API returned " +:+ fmt_d (StatusCode resp)
                        +:+ ": " +:+ respBody))
          else
            when (logVerbose cfg)
              (log_Printf "📥 Buildkite response: %s" [Str respBody]);;
            commit7 ← slice_to commit 7;
            log_Printf "✅ Build triggered: %s/%s (branch: %s, commit: %s)"
              [Str (buildkiteOrg cfg); Str pipeline; Str branch; Str commit7];;
            mret None
      end
  end.

(** The request that [triggerBuild] hands to [client.Do]: the new request
    after its two [req.Header.Set]. *)
Definition sent (pipeline branch commit message : string) (webhook : ForgejoWebhook)
    : OutboundRequest :=
  Header_Set "Content-Type" "application/json"
    (Header_Set "Authorization" ("Bearer " +:+ buildkiteToken cfg)
       {| out_Method := http_MethodPost; out_URL := url pipeline; out_Header := ∅;
          out_Body := json_Marshal (payload branch commit message webhook) |}).

(** ** [webhookHandler] *)

(** The local [branch]: extract the branch from the ref
    ([refs/heads/main -> main]). *)
Definition branch (webhook : ForgejoWebhook) : string :=
  strings_TrimPrefix (Ref webhook) "refs/heads/".

(** The local [commitShort]:
    [commitShort := webhook.HeadCommit.ID;
     if len(commitShort) > 7 { commitShort = commitShort[:7] }]. *)
Definition commitShort (webhook : ForgejoWebhook) : M string :=
  let commitShort := HeadCommit.ID (HeadCommit webhook) in
  if decide (7 < len commitShort)
  then slice_to commitShort 7
  else mret commitShort.

Definition webhookHandler (r : Request) (downstream : result DownstreamResponse)
    : M Response :=
  if negb (String.eqb (Method r) http_MethodPost) then
    mret (http_Error "Method not allowed" http_StatusMethodNotAllowed)
  else
  (* Extract pipeline slug from URL path *)
  let path := strings_TrimPrefix (URL_Path r) "/webhook/" in
  if String.eqb path "" || String.eqb path "webhook/" then
    mret (http_Error "Pipeline slug required in URL: /webhook/<pipeline-slug>"
            http_StatusBadRequest)
  else
  (* Parse Forgejo webhook payload *)
  body ← io_ReadAll r;
  match body with
  | Err err =>
      log_Printf "❌ Error reading body: %v" [Str err];;
      mret (http_Error "Bad request" http_StatusBadRequest)
  | Ok body =>
      when (logVerbose cfg)
        (log_Printf "📦 Received payload: %s" [Str body]);;
      emit (Unmarshal body);;
      match json_Unmarshal body zero_ForgejoWebhook with
      | Err err =>
          log_Printf "❌ Error parsing webhook: %v" [Str err];;
          mret (http_Error "Bad request: invalid JSON" http_StatusBadRequest)
      | Ok webhook =>
          let branch := branch webhook in
          commitShort ← commitShort webhook;
          log_Printf "📨 Webhook: repo=%s, branch=%s, commit=%s, author=%s"
            [Str (Repository.FullName (Repository webhook)); Str branch;
             Str commitShort; Str (Pusher.Username (Pusher webhook))];;
          (* Trigger Buildkite build *)
          err ← triggerBuild path branch (HeadCommit.ID (HeadCommit webhook))
                  (HeadCommit.Message (HeadCommit webhook)) webhook downstream;
          match err with
          | Some err =>
              log_Printf "❌ Failed to trigger build: %v" [Str err];;
              mret (http_Error ("Failed to trigger build: " +:+ err)
                      http_StatusInternalServerError)
          | None =>
              mret (JSON http_StatusOK
                      {[ "status" := "success";
                         "message" := "Build triggered successfully";
                         "pipeline" := path;
                         "branch" := branch;
                         "commit" := commitShort ]})
          end
      end
  end.

End Bridge.

(** ** Notions the properties are stated with *)

(** [sub] occurs in [s]. *)
Definition contains (s sub : string) : Prop :=
  ∃ before after, s = before +:+ sub +:+ after.

(** The same configuration under another API token. *)
Definition with_token (token : string) (cfg : Config) : Config :=
  {| buildkiteOrg := buildkiteOrg cfg;
     buildkiteToken := token;
     port := port cfg;
     logVerbose := logVerbose cfg |}.

(** An event without the [Authorization] header of an outbound call. *)
Definition redact (e : event) : event :=
  match e with
  | Do req =>
      Do {| out_Method := out_Method req;
            out_URL := out_URL req;
            out_Header := delete "Authorization"%string (out_Header req);
            out_Body := out_Body req |}
  | _ => e
  end.

(** The short form of a commit id that has at least seven bytes. *)
Definition first7 (id : string) : string := substring 0 7 id.

(** ** Test doubles

    Stand-ins for the library and sample data for the examples: the push
    payload of the README's test command, a push whose commit id has three
    bytes, and the configuration of a running bridge. *)

Module Double.
Local Open Scope string_scope.

Definition dquote : ascii := ascii_of_nat 34.

(** JSON text is written here with ['] where the text has a double quote. *)
Fixpoint quoted (s : string) : string :=
  match s with
  | EmptyString => EmptyString
  | String c s' => String (if Ascii.eqb c "'" then dquote else c) (quoted s')
  end.

Definition push_body : string :=
  quoted ("{'ref':'refs/heads/main',"
    +:+ "'repository':{'name':'my-repo','full_name':'user/my-repo'},"
    +:+ "'head_commit':{'id':'abc123def456','message':'Test commit',"
    +:+ "'author':{'name':'John Doe','email':'john@example.com','username':'john'}},"
    +:+ "'pusher':{'username':'john'}}").

Definition push_webhook : ForgejoWebhook :=
  {| Ref := "refs/heads/main";
     Repository :=
       {| Repository.Name := "my-repo"; Repository.FullName := "user/my-repo" |};
     HeadCommit :=
       {| HeadCommit.ID := "abc123def456"; HeadCommit.Message := "Test commit";
          HeadCommit.Author :=
            {| HeadCommit.Author.Name := "John Doe";
               HeadCommit.Author.Email := "john@example.com";
               HeadCommit.Author.Username := "john" |} |};
     Pusher := {| Pusher.Username := "john" |} |}.

Definition short_body : string :=
  quoted "{'ref':'refs/heads/main','head_commit':{'id':'abc'}}".

Definition with_ref_and_id (ref id : string) (v : ForgejoWebhook) : ForgejoWebhook :=
  {| Ref := ref;
     Repository := Repository v;
     HeadCommit :=
       {| HeadCommit.ID := id;
          HeadCommit.Message := HeadCommit.Message (HeadCommit v);
          HeadCommit.Author := HeadCommit.Author (HeadCommit v) |};
     Pusher := Pusher v |}.

Definition has_control (s : string) : bool :=
  existsb (λ c, (nat_of_ascii c <? 32)%nat || (nat_of_ascii c =? 127)%nat)
    (list_ascii_of_string s).

(** A decoder that knows the sample bodies and the empty object, and a URL
    parser that refuses control characters. *)
Definition externals : Externals :=
  {| json_Unmarshal data v :=
       if String.eqb data push_body then Ok push_webhook
       else if String.eqb data short_body
            then Ok (with_ref_and_id "refs/heads/main" "abc" v)
       else if String.eqb data "{}" then Ok v
       else Err "invalid character 'o' in literal null (expecting 'u')";
     url_Parse rawURL :=
       if has_control rawURL
       then Some ("parse " +:+ quoted "'" +:+ rawURL +:+ quoted "'"
                  +:+ ": net/url: invalid control character in URL")
       else None |}.

Definition config : Config :=
  {| buildkiteOrg := "my-org"; buildkiteToken := "bkua_0123456789abcdef";
     port := "8080"; logVerbose := false |}.

Definition post (path : string) (body : string) : Request :=
  {| Method := "POST"; URL_Path := path; Body := Ok body |}.

Definition get (path : string) : Request :=
  {| Method := "GET"; URL_Path := path; Body := Ok "" |}.

Definition answers (code : Z) (body : string) : result DownstreamResponse :=
  Ok {| StatusCode := code; respBody := body |}.
End Double.

(** ** Startup and the two static handlers

    The rest of [main.go]: [getEnv], [main], [healthHandler] and
    [rootHandler]. *)

Definition version : string := "1.0.0".

(** The process environment: the variables that are set, with their values.
    [os.Getenv(key)] is the value of [key], and [""] when it is not set. *)
Definition os_Getenv (environ : gmap string string) (key : string) : string :=
  default ""%string (environ !! key).

Definition getEnv (environ : gmap string string) (key fallback : string) : string :=
  let value := os_Getenv environ key in
  if negb (String.eqb value "") then value else fallback.

(** The three handler functions [main] registers. *)
Inductive HandlerFunc : Type :=
  | webhookHandler_func
  | healthHandler_func
  | rootHandler_func.

(** What [main] does to the outside world. *)
Inductive startup_event : Type :=
  | HandleFunc (pattern : string) (handler : HandlerFunc)
      (** [http.HandleFunc(pattern, handler)] *)
  | Logf (format : string) (args : list operand)   (** [log.Printf] *)
  | Println                                        (** [log.Println()] *)
  | ListenAndServe (addr : string)                 (** [http.ListenAndServe(addr, nil)] *).

(** How [main] ends. *)
Inductive exit : Type :=
  | Fatal (message : string)
      (** [log.Fatal]: the message is logged and the process exits with
          status 1 *)
  | Returned.

Definition newline : string := String (ascii_of_nat 10) EmptyString.

(** [fmt]'s verb [%v] on a [bool]. *)
Definition fmt_v_bool (b : bool) : string := if b then "true" else "false".

Section Main.
(** [godotenv.Load()]: the environment once the [.env] file, if there is
    one, has been read into it. *)
Variable godotenv_Load : gmap string string → gmap string string.

(** [main]: the configuration it assigns to the package variables, the
    events it causes and how it ends.  [listen] is what
    [http.ListenAndServe] returns, if it returns. *)
Definition main (environ : gmap string string) (listen : option error)
    : Config * (list startup_event * exit) :=
  (* Load .env file if it exists (ignore errors if file doesn't exist) *)
  let environ := godotenv_Load environ in
  (* Initialize configuration from environment variables *)
  let cfg :=
    {| buildkiteOrg := os_Getenv environ "BUILDKITE_ORG";
       buildkiteToken := os_Getenv environ "BUILDKITE_TOKEN";
       port := getEnv environ "WEBHOOK_PORT" "8080";
       logVerbose := String.eqb (getEnv environ "LOG_VERBOSE" "false") "true" |} in
  if String.eqb (buildkiteOrg cfg) "" || String.eqb (buildkiteToken cfg) "" then
    (cfg,
     ([],
      Fatal ("Error: BUILDKITE_ORG and BUILDKITE_TOKEN environment variables must be set"
             +:+ newline
             +:+ "Get token from: https://buildkite.com/user/api-access-tokens (requires write_builds scope)")))
  else
    (cfg,
     ([HandleFunc "/webhook/" webhookHandler_func;
       HandleFunc "/health" healthHandler_func;
       HandleFunc "/" rootHandler_func;
       Logf "🚀 Buildkite-Forgejo Webhook Bridge v%s" [Str version];
       Logf "📡 Listening on port %s" [Str (port cfg)];
       Logf "🏢 Buildkite organization: %s" [Str (buildkiteOrg cfg)];
       Logf "📝 Verbose logging: %v" [Str (fmt_v_bool (logVerbose cfg))];
       Println;
       Logf "Configure Forgejo webhook to: http://your-host:%s/webhook/<pipeline-slug>"
         [Str (port cfg)];
       Logf "Example: http://your-host:%s/webhook/my-app" [Str (port cfg)];
       Println;
       ListenAndServe (":" +:+ port cfg)],
      match listen with
      | Some err => Fatal err
      | None => Returned
      end)).
End Main.

(** [healthHandler]: whatever the request, [Content-Type: application/json],
    status 200 and the encoded map (all its values are strings). *)
Definition healthHandler (cfg : Config) (r : Request) : M Response :=
  mret (JSON http_StatusOK
          {[ "status" := "healthy";
             "version" := version;
             "org" := buildkiteOrg cfg ]}%string).

(** What [rootHandler] writes: the [Content-Type] header, the status and
    the body. *)
Record Page : Type := {
  page_ContentType : string;
  page_status : Z;
  page_body : string;
}.

(** The lines of a text, joined by newlines.  In the lines below ['] stands
    for the double quote of the source. *)
Fixpoint source_text (s : string) : string :=
  match s with
  | EmptyString => EmptyString
  | String c s' =>
      String (if Ascii.eqb c "'" then ascii_of_nat 34 else c) (source_text s')
  end.

Fixpoint unlines (lines : list string) : string :=
  match lines with
  | [] => EmptyString
  | [line] => source_text line
  | line :: lines => source_text line +:+ newline +:+ unlines lines
  end.

(** The template up to the version. *)
Definition page_head : string :=
  unlines
    ["<!DOCTYPE html>";
     "<html>";
     "<head>";
     "    <meta charset='UTF-8'>";
     "    <meta name='viewport' content='width=device-width, initial-scale=1.0'>";
     "    <title>Buildkite-Forgejo Webhook Bridge</title>";
     "    <style>";
     "        body { font-family: system-ui; max-width: 800px; margin: 50px auto; padding: 20px; }";
     "        code { background: #f4f4f4; padding: 2px 6px; border-radius: 3px; }";
     "        pre { background: #f4f4f4; padding: 15px; border-radius: 5px; overflow-x: auto; }";
     "        h1 { color: #333; }";
     "        .status { color: #28a745; }";
     "    </style>";
     "</head>";
     "<body>";
     "    <h1>🚀 Buildkite-Forgejo Webhook Bridge</h1>";
     "    <p class='status'>✓ Service is running (v"].

(** The template between the version and the organization. *)
Definition page_org : string :=
  unlines
    [")</p>";
     "    <h2>Configuration</h2>";
     "    <ul>";
     "        <li><strong>Buildkite Org:</strong> "].

(** The template between the organization and the first port. *)
Definition page_url : string :=
  unlines
    ["</li>";
     "        <li><strong>Webhook URL:</strong> <code>http://your-host:"].

(** The template between the two ports. *)
Definition page_steps : string :=
  unlines
    ["/webhook/&lt;pipeline-slug&gt;</code></li>";
     "    </ul>";
     "    <h2>Setup Instructions</h2>";
     "    <ol>";
     "        <li>Go to your Forgejo repository settings</li>";
     "        <li>Navigate to Webhooks → Add Webhook</li>";
     "        <li>Set URL to: <code>http://your-host:"].

(** The template after the second port. *)
Definition page_tail : string :=
  unlines
    ["/webhook/&lt;pipeline-slug&gt;</code></li>";
     "        <li>Set Content Type: <code>application/json</code></li>";
     "        <li>Select trigger: <strong>Push events</strong></li>";
     "        <li>Save and test!</li>";
     "    </ol>";
     "    <h2>Endpoints</h2>";
     "    <ul>";
     "        <li><code>/</code> - This page</li>";
     "        <li><code>/health</code> - Health check endpoint</li>";
     "        <li><code>/webhook/&lt;pipeline-slug&gt;</code> - Webhook receiver</li>";
     "    </ul>";
     "</body>";
     "</html>"].

(** [rootHandler]: [fmt.Fprintf] of the template with [version],
    [buildkiteOrg], [port] and [port] for its four [%s]. *)
Definition rootHandler (cfg : Config) (r : Request) : M Page :=
  mret {| page_ContentType := "text/html";
          page_status := http_StatusOK;
          page_body :=
            page_head +:+ version +:+ page_org +:+ buildkiteOrg cfg +:+ page_url
              +:+ port cfg +:+ page_steps +:+ port cfg +:+ page_tail |}.

(** The same configuration with verbose logging switched. *)
Definition with_verbose (verbose : bool) (cfg : Config) : Config :=
  {| buildkiteOrg := buildkiteOrg cfg;
     buildkiteToken := buildkiteToken cfg;
     port := port cfg;
     logVerbose := verbose |}.

(** The four paths on which the handler finds no pipeline slug. *)
Definition slugless (path : string) : Prop :=
  path = ""%string ∨ path = "/webhook/"%string ∨ path = "webhook/"%string
  ∨ path = "/webhook/webhook/"%string.

(** What is left of a trace without its log lines. *)
Definition without_logs (t : list event) : list event :=
  omap (λ e, match e with Printf _ _ => None | _ => Some e end) t.

(** Sample environments for the examples. *)
Module Sample.
Definition environ : gmap string string :=
  {[ "BUILDKITE_ORG" := "my-org"; "BUILDKITE_TOKEN" := "bkua_0123456789abcdef" ]}%string.

Definition environ_9000 : gmap string string :=
  <["WEBHOOK_PORT" := "9000"]> (<["LOG_VERBOSE" := "true"]> environ)%string.

Definition no_token : gmap string string :=
  {[ "BUILDKITE_ORG" := "my-org"; "BUILDKITE_TOKEN" := "" ]}%string.

(** A [.env] loader that finds no file. *)
Definition no_dotenv (environ : gmap string string) : gmap string string := environ.

Definition unreadable : Request :=
  {| Method := "POST"; URL_Path := "/webhook/my-pipeline";
     Body := Err "unexpected EOF" |}.
End Sample.

(** * Properties *)

(** ** Strings *)

Section Strings.

Lemma len_append (s t : string) : len (s +:+ t) = len s + len t.
Proof. unfold len. induction s as [|c s IH]; simpl; [done | by rewrite IH]. Qed.

Lemma substring_all (s : string) : substring 0 (len s) s = s.
Proof. induction s as [|c s IH]; simpl; [done | by rewrite IH]. Qed.

Lemma substring_head (s t : string) : substring 0 (len s) (s +:+ t) = s.
Proof.
  induction s as [|c s IH]; simpl.
  - by destruct t.
  - by rewrite IH.
Qed.

Lemma substring_tail (s t : string) : substring (len s) (len t) (s +:+ t) = t.
Proof. induction s as [|c s IH]; simpl; [apply substring_all | done]. Qed.

(** Cutting a string in two loses nothing. *)
Lemma substring_split (n : nat) (s : string) :
  n ≤ len s → s = substring 0 n s +:+ substring n (len s - n) s.
Proof.
  revert s. induction n as [|n IH]; intros s Hn.
  - simpl. rewrite Nat.sub_0_r, substring_all. by destruct s.
  - destruct s as [|c s]; simpl in *; [lia |].
    change (String c s = String c (substring 0 n s +:+ substring n (len s - n) s)).
    f_equal. apply IH. lia.
Qed.

Lemma len_substring (n : nat) (s : string) : n ≤ len s → len (substring 0 n s) = n.
Proof.
  revert s. induction n as [|n IH]; intros s Hn.
  - by destruct s.
  - destruct s as [|c s]; simpl in *; [lia |]. rewrite IH; [done | lia].
Qed.

Lemma strings_HasPrefix_spec (s prefix : string) :
  strings_HasPrefix s prefix = true ↔ ∃ rest, s = prefix +:+ rest.
Proof.
  unfold strings_HasPrefix. rewrite andb_true_iff, bool_decide_eq_true, String.eqb_eq.
  split.
  - intros [Hlen Hpre].
    exists (substring (len prefix) (len s - len prefix) s).
    rewrite <- Hpre at 1. by apply substring_split.
  - intros [rest ->]. rewrite len_append, substring_head. split; [lia | done].
Qed.

Lemma strings_TrimPrefix_prefixed (prefix rest : string) :
  strings_TrimPrefix (prefix +:+ rest) prefix = rest.
Proof.
  unfold strings_TrimPrefix.
  assert (strings_HasPrefix (prefix +:+ rest) prefix = true) as ->
    by (apply strings_HasPrefix_spec; eauto).
  rewrite len_append.
  replace (len prefix + len rest - len prefix) with (len rest) by lia.
  apply substring_tail.
Qed.

Lemma strings_TrimPrefix_other (s prefix : string) :
  (∀ rest, s ≠ prefix +:+ rest) → strings_TrimPrefix s prefix = s.
Proof.
  intros Hno. unfold strings_TrimPrefix.
  destruct (strings_HasPrefix s prefix) eqn:Hp; [| done].
  apply strings_HasPrefix_spec in Hp as [rest ->]. by destruct (Hno rest).
Qed.
End Strings.

(** ** Computations *)

Section Computations.
Context {A B : Type}.

Lemma bind_ret (a : A) (f : A → M B) : (mret a ≫= f) = f a.
Proof. unfold mbind, M_bind, mret, M_ret. by destruct (f a). Qed.

Lemma bind_emit (e : event) (k : M B) : (emit e;; k) = (e :: trace k, ended k).
Proof. unfold mbind, M_bind, emit. by destruct k. Qed.

Lemma bind_panic (msg : string) (f : A → M B) : (panic msg ≫= f) = panic msg.
Proof. done. Qed.

Lemma ended_bind (m : M A) (f : A → M B) :
  ended (m ≫= f) =
    match ended m with
    | Return a => ended (f a)
    | Panic msg => Panic msg
    end.
Proof.
  unfold mbind, M_bind. destruct m as [t [a | msg]]; simpl; [| done].
  by destruct (f a).
Qed.

Lemma trace_bind (m : M A) (f : A → M B) :
  trace (m ≫= f) =
    trace m ++ match ended m with
               | Return a => trace (f a)
               | Panic _ => []
               end.
Proof.
  unfold mbind, M_bind. destruct m as [t [a | msg]]; simpl.
  - by destruct (f a).
  - by rewrite app_nil_r.
Qed.
End Computations.

Lemma ended_when (cond : bool) (body : M unit) :
  ended body = Return tt → ended (when cond body) = Return tt.
Proof. by destruct cond. Qed.

Lemma ended_log_Printf (format : string) (args : list operand) :
  ended (log_Printf format args) = Return tt.
Proof. done. Qed.

Lemma outbound_calls_app (t1 t2 : list event) :
  outbound_calls (t1 ++ t2) = outbound_calls t1 ++ outbound_calls t2.
Proof. apply omap_app. Qed.

Lemma outbound_calls_when_log (cond : bool) (body : M unit) :
  outbound_calls (trace body) = [] → outbound_calls (trace (when cond body)) = [].
Proof. by destruct cond. Qed.

(** ** [triggerBuild] *)

#[local] Arguments url : simpl never.
#[local] Arguments payload : simpl never.
#[local] Arguments json_Marshal : simpl never.
#[local] Arguments Header_Set : simpl never.
#[local] Arguments fmt_d : simpl never.
#[local] Arguments strings_TrimPrefix : simpl never.
#[local] Arguments String.append : simpl never.

Section TriggerBuild.
Context `{Externals}.
Variable cfg : Config.
Variables pipeline br commit message : string.
Variable webhook : ForgejoWebhook.

(** The status test of [triggerBuild]. *)
Lemma status_test (code : Z) :
  negb (code =? http_StatusCreated)%Z && negb (code =? http_StatusOK)%Z = false
  ↔ code = 200%Z ∨ code = 201%Z.
Proof. unfold http_StatusCreated, http_StatusOK. lia. Qed.

(** A URL that does not parse: no call is made. *)
Lemma triggerBuild_bad_url (downstream : result DownstreamResponse) (err : error) :
  url_Parse (url cfg pipeline) = Some err →
  ended (triggerBuild cfg pipeline br commit message webhook downstream)
    = Return (Some ("failed to create request: " +:+ err))
  ∧ outbound_calls (trace (triggerBuild cfg pipeline br commit message webhook downstream))
    = [].
Proof.
  intros Hurl. unfold triggerBuild, http_NewRequest. rewrite Hurl.
  by destruct (logVerbose cfg).
Qed.

(** Whenever the URL parses, exactly one call is made, whatever comes back. *)
Lemma triggerBuild_calls_once (downstream : result DownstreamResponse) :
  url_Parse (url cfg pipeline) = None →
  outbound_calls (trace (triggerBuild cfg pipeline br commit message webhook downstream))
    = [sent cfg pipeline br commit message webhook].
Proof.
  intros Hurl. unfold triggerBuild, http_NewRequest. rewrite Hurl.
  destruct downstream as [[code text] | err]; simpl.
  - destruct (negb (code =? http_StatusCreated)%Z && negb (code =? http_StatusOK)%Z);
      [by destruct (logVerbose cfg) |].
    unfold slice_to. destruct (decide (7 ≤ len commit)); by destruct (logVerbose cfg).
  - by destruct (logVerbose cfg).
Qed.

(** A transport-level failure. *)
Lemma triggerBuild_transport_error (err : error) :
  url_Parse (url cfg pipeline) = None →
  ended (triggerBuild cfg pipeline br commit message webhook (Err err))
    = Return (Some ("request failed: " +:+ err)).
Proof.
  intros Hurl. unfold triggerBuild, http_NewRequest. rewrite Hurl.
  by destruct (logVerbose cfg).
Qed.

(** A downstream status other than 200 and 201. *)
Lemma triggerBuild_status_error (code : Z) (text : string) :
  url_Parse (url cfg pipeline) = None →
  code ≠ 200%Z → code ≠ 201%Z →
  ended (triggerBuild cfg pipeline br commit message webhook
           (Ok {| StatusCode := code; respBody := text |}))
    = Return (Some ("buildkite API returned " +:+ fmt_d code +:+ ": " +:+ text)).
Proof.
  intros Hurl H200 H201. unfold triggerBuild, http_NewRequest. rewrite Hurl. simpl.
  destruct (negb (code =? http_StatusCreated)%Z && negb (code =? http_StatusOK)%Z) eqn:Ht.
  - by destruct (logVerbose cfg).
  - apply status_test in Ht. lia.
Qed.

(** Status 200 or 201 with a commit id of at least seven bytes. *)
Lemma triggerBuild_success (code : Z) (text : string) :
  url_Parse (url cfg pipeline) = None →
  code = 200%Z ∨ code = 201%Z →
  7 ≤ len commit →
  ended (triggerBuild cfg pipeline br commit message webhook
           (Ok {| StatusCode := code; respBody := text |}))
    = Return None.
Proof.
  intros Hurl Hcode Hlen. unfold triggerBuild, http_NewRequest. rewrite Hurl. simpl.
  apply status_test in Hcode as ->. unfold slice_to.
  destruct (decide (7 ≤ len commit)); [| lia]. by destruct (logVerbose cfg).
Qed.

(** Status 200 or 201 with a shorter commit id: the operand [commit[:7]]
    of the last log line is out of range. *)
Lemma triggerBuild_short_commit (code : Z) (text : string) :
  url_Parse (url cfg pipeline) = None →
  code = 200%Z ∨ code = 201%Z →
  len commit < 7 →
  ended (triggerBuild cfg pipeline br commit message webhook
           (Ok {| StatusCode := code; respBody := text |}))
    = Panic "slice bounds out of range".
Proof.
  intros Hurl Hcode Hlen. unfold triggerBuild, http_NewRequest. rewrite Hurl. simpl.
  apply status_test in Hcode as ->. unfold slice_to.
  destruct (decide (7 ≤ len commit)); [lia |]. by destruct (logVerbose cfg).
Qed.

(** On status 200 or 201 no error comes back. *)
Lemma triggerBuild_no_error (code : Z) (text : string) (err : error) :
  url_Parse (url cfg pipeline) = None →
  code = 200%Z ∨ code = 201%Z →
  ended (triggerBuild cfg pipeline br commit message webhook
           (Ok {| StatusCode := code; respBody := text |}))
    ≠ Return (Some err).
Proof.
  intros Hurl Hcode.
  destruct (decide (7 ≤ len commit)) as [Hlen | Hlen].
  - by rewrite triggerBuild_success.
  - rewrite triggerBuild_short_commit; [done.. | lia].
Qed.
End TriggerBuild.

(** ** [webhookHandler] *)

Section WebhookHandler.
Context `{Externals}.
Variable cfg : Config.

(** The guard of [commitShort] keeps its slice in range. *)
Lemma commitShort_returns (webhook : ForgejoWebhook) :
  commitShort webhook =
    mret (if decide (7 < len (HeadCommit.ID (HeadCommit webhook)))
          then first7 (HeadCommit.ID (HeadCommit webhook))
          else HeadCommit.ID (HeadCommit webhook)).
Proof.
  unfold commitShort, slice_to.
  destruct (decide (7 < _)) as [Hlt | Hge]; [| done].
  destruct (decide (7 ≤ _)); [done | lia].
Qed.

Lemma webhookHandler_not_post (r : Request) (downstream : result DownstreamResponse) :
  Method r ≠ http_MethodPost →
  webhookHandler cfg r downstream
    = mret (http_Error "Method not allowed" http_StatusMethodNotAllowed).
Proof.
  intros Hm. unfold webhookHandler.
  by destruct (String.eqb_spec (Method r) http_MethodPost).
Qed.

Lemma webhookHandler_no_slug (r : Request) (downstream : result DownstreamResponse) :
  Method r = http_MethodPost →
  strings_TrimPrefix (URL_Path r) "/webhook/" = "" →
  webhookHandler cfg r downstream
    = mret (http_Error "Pipeline slug required in URL: /webhook/<pipeline-slug>"
              http_StatusBadRequest).
Proof.
  intros Hm Hp. unfold webhookHandler. by rewrite Hm, Hp.
Qed.

(** The handler on a POST whose path names a pipeline: what is left of it
    once the method and path tests are passed. *)
Lemma webhookHandler_post (r : Request) (downstream : result DownstreamResponse)
    (pipeline : string) :
  Method r = http_MethodPost →
  URL_Path r = "/webhook/" +:+ pipeline →
  pipeline ≠ "" → pipeline ≠ "webhook/" →
  webhookHandler cfg r downstream =
    body ← io_ReadAll r;
    match body with
    | Err err =>
        log_Printf "❌ Error reading body: %v" [Str err];;
        mret (http_Error "Bad request" http_StatusBadRequest)
    | Ok body =>
        when (logVerbose cfg) (log_Printf "📦 Received payload: %s" [Str body]);;
        emit (Unmarshal body);;
        match json_Unmarshal body zero_ForgejoWebhook with
        | Err err =>
            log_Printf "❌ Error parsing webhook: %v" [Str err];;
            mret (http_Error "Bad request: invalid JSON" http_StatusBadRequest)
        | Ok webhook =>
            commitShort ← commitShort webhook;
            log_Printf "📨 Webhook: repo=%s, branch=%s, commit=%s, author=%s"
              [Str (Repository.FullName (Repository webhook)); Str (branch webhook);
               Str commitShort; Str (Pusher.Username (Pusher webhook))];;
            err ← triggerBuild cfg pipeline (branch webhook)
                    (HeadCommit.ID (HeadCommit webhook))
                    (HeadCommit.Message (HeadCommit webhook)) webhook downstream;
            match err with
            | Some err =>
                log_Printf "❌ Failed to trigger build: %v" [Str err];;
                mret (http_Error ("Failed to trigger build: " +:+ err)
                        http_StatusInternalServerError)
            | None =>
                mret (JSON http_StatusOK
                        {[ "status" := "success";
                           "message" := "Build triggered successfully";
                           "pipeline" := pipeline;
                           "branch" := branch webhook;
                           "commit" := commitShort ]})
            end
        end
    end.
Proof.
  intros Hm Hp Hne Hne'. unfold webhookHandler.
  rewrite Hm, Hp, strings_TrimPrefix_prefixed.
  apply String.eqb_neq in Hne, Hne'. by rewrite Hne, Hne'.
Qed.
End WebhookHandler.

(** ** The handler once the body is decoded *)

Section Decoded.
Context `{Externals}.
Variable cfg : Config.

(** What the handler answers follows from how [triggerBuild] ends, and the
    only outbound calls of the handler are those of [triggerBuild]. *)
Lemma webhookHandler_decoded (r : Request) (downstream : result DownstreamResponse)
    (pipeline body : string) (webhook : ForgejoWebhook) :
  Method r = http_MethodPost →
  URL_Path r = "/webhook/" +:+ pipeline →
  pipeline ≠ "" → pipeline ≠ "webhook/" →
  Body r = Ok body →
  json_Unmarshal body zero_ForgejoWebhook = Ok webhook →
  ended (webhookHandler cfg r downstream) =
    match ended (triggerBuild cfg pipeline (branch webhook)
                   (HeadCommit.ID (HeadCommit webhook))
                   (HeadCommit.Message (HeadCommit webhook)) webhook downstream) with
    | Return (Some err) =>
        Return (http_Error ("Failed to trigger build: " +:+ err)
                  http_StatusInternalServerError)
    | Return None =>
        Return (JSON http_StatusOK
                  {[ "status" := "success";
                     "message" := "Build triggered successfully";
                     "pipeline" := pipeline;
                     "branch" := branch webhook;
                     "commit" :=
                       if decide (7 < len (HeadCommit.ID (HeadCommit webhook)))
                       then first7 (HeadCommit.ID (HeadCommit webhook))
                       else HeadCommit.ID (HeadCommit webhook) ]})
    | Panic msg => Panic msg
    end
  ∧ outbound_calls (trace (webhookHandler cfg r downstream)) =
      outbound_calls (trace (triggerBuild cfg pipeline (branch webhook)
                   (HeadCommit.ID (HeadCommit webhook))
                   (HeadCommit.Message (HeadCommit webhook)) webhook downstream)).
Proof.
  intros Hm Hp Hne Hne' Hbody Hjson.
  rewrite (webhookHandler_post cfg r downstream pipeline) by done.
  unfold io_ReadAll. rewrite Hbody.
  destruct (triggerBuild _ _ _ _ _ _ _) as [t [[err|]|msg]] eqn:Hrun;
    destruct (logVerbose cfg) eqn:Hv; simpl; rewrite Hjson; simpl;
    rewrite commitShort_returns; simpl; rewrite Hrun; simpl;
    by rewrite ?outbound_calls_app, ?app_nil_r.
Qed.

(** A body that cannot be read or decoded ends the request before
    [triggerBuild]. *)
Lemma webhookHandler_undecoded (r : Request) (downstream : result DownstreamResponse)
    (pipeline : string) :
  Method r = http_MethodPost →
  URL_Path r = "/webhook/" +:+ pipeline →
  pipeline ≠ "" → pipeline ≠ "webhook/" →
  match Body r with
  | Err _ =>
      ended (webhookHandler cfg r downstream)
        = Return (http_Error "Bad request" http_StatusBadRequest)
      ∧ outbound_calls (trace (webhookHandler cfg r downstream)) = []
  | Ok body =>
      ∀ err, json_Unmarshal body zero_ForgejoWebhook = Err err →
        ended (webhookHandler cfg r downstream)
          = Return (http_Error "Bad request: invalid JSON" http_StatusBadRequest)
        ∧ outbound_calls (trace (webhookHandler cfg r downstream)) = []
  end.
Proof.
  intros Hm Hp Hne Hne'.
  rewrite (webhookHandler_post cfg r downstream pipeline) by done.
  unfold io_ReadAll. destruct (Body r) as [body | err]; [| done].
  intros err Hjson. destruct (logVerbose cfg); simpl; by rewrite Hjson.
Qed.
End Decoded.
(** ** The API token

    The token reaches the [Authorization] header of the outbound call and
    nothing else. *)

#[local] Arguments redact : simpl never.
#[local] Arguments sent : simpl never.
Section Token.
Context `{Externals}.

Lemma triggerBuild_sent (cfg : Config) (pipeline br commit message : string)
    (webhook : ForgejoWebhook) (downstream : result DownstreamResponse) :
  triggerBuild cfg pipeline br commit message webhook downstream =
    (when (logVerbose cfg)
       (log_Printf "🔍 Debug: buildkiteOrg='%s', pipeline='%s'"
          [Str (buildkiteOrg cfg); Str pipeline];;
        log_Printf "🔍 Debug: URL='%s'" [Str (url cfg pipeline)]);;
     when (logVerbose cfg)
       (log_Printf "📤 Buildkite payload: %s"
          [Doc (json_Marshal (payload br commit message webhook))]);;
     match url_Parse (url cfg pipeline) with
     | Some err => mret (Some ("failed to create request: " +:+ err))
     | None =>
         resp ← client_Do downstream (sent cfg pipeline br commit message webhook);
         match resp with
         | Err err => mret (Some ("request failed: " +:+ err))
         | Ok resp =>
             if negb (StatusCode resp =? http_StatusCreated)%Z
                && negb (StatusCode resp =? http_StatusOK)%Z
             then
               mret (Some ("buildkite API returned " +:+ fmt_d (StatusCode resp)
                           +:+ ": " +:+ respBody resp))
             else
               when (logVerbose cfg)
                 (log_Printf "📥 Buildkite response: %s" [Str (respBody resp)]);;
               commit7 ← slice_to commit 7;
               log_Printf "✅ Build triggered: %s/%s (branch: %s, commit: %s)"
                 [Str (buildkiteOrg cfg); Str pipeline; Str br; Str commit7];;
               mret None
         end
     end).
Proof.
  unfold triggerBuild, http_NewRequest, sent.
  by destruct (url_Parse (url cfg pipeline)).
Qed.

Lemma redact_sent (cfg : Config) (token1 token2 pipeline br commit message : string)
    (webhook : ForgejoWebhook) :
  redact (Do (sent (with_token token1 cfg) pipeline br commit message webhook))
  = redact (Do (sent (with_token token2 cfg) pipeline br commit message webhook)).
Proof.
  unfold sent, Header_Set, redact, out_Header, out_Method, out_URL, out_Body.
  f_equal; f_equal;
    rewrite !(delete_insert_ne _ "Authorization" "Content-Type") by done;
    by rewrite !delete_insert_eq.
Qed.

Lemma triggerBuild_token (cfg : Config) (token1 token2 pipeline br commit message : string)
    (webhook : ForgejoWebhook) (downstream : result DownstreamResponse) :
  ended (triggerBuild (with_token token1 cfg) pipeline br commit message webhook downstream)
  = ended (triggerBuild (with_token token2 cfg) pipeline br commit message webhook downstream)
  ∧ redact <$> trace (triggerBuild (with_token token1 cfg) pipeline br commit message
                        webhook downstream)
    = redact <$> trace (triggerBuild (with_token token2 cfg) pipeline br commit message
                          webhook downstream).
Proof.
  rewrite !triggerBuild_sent.
  pose proof (redact_sent cfg token1 token2 pipeline br commit message webhook) as Hsent.
  revert Hsent.
  generalize (sent (with_token token1 cfg) pipeline br commit message webhook).
  generalize (sent (with_token token2 cfg) pipeline br commit message webhook).
  intros req2 req1 Hreq.
  change (url (with_token token1 cfg) pipeline) with (url cfg pipeline).
  change (url (with_token token2 cfg) pipeline) with (url cfg pipeline).
  change (logVerbose (with_token token1 cfg)) with (logVerbose cfg).
  change (logVerbose (with_token token2 cfg)) with (logVerbose cfg).
  change (buildkiteOrg (with_token token1 cfg)) with (buildkiteOrg cfg).
  change (buildkiteOrg (with_token token2 cfg)) with (buildkiteOrg cfg).
  destruct (url_Parse (url cfg pipeline)) as [err |]; [done |].
  destruct downstream as [[code text] | err]; simpl.
  - destruct (negb (code =? http_StatusCreated)%Z && negb (code =? http_StatusOK)%Z).
    + destruct (logVerbose cfg); simpl; by rewrite Hreq.
    + unfold slice_to. destruct (decide (7 ≤ len commit));
        destruct (logVerbose cfg); simpl; by rewrite Hreq.
  - destruct (logVerbose cfg); simpl; by rewrite Hreq.
Qed.

Lemma webhookHandler_token (cfg : Config) (token1 token2 : string) (r : Request)
    (downstream : result DownstreamResponse) :
  ended (webhookHandler (with_token token1 cfg) r downstream)
  = ended (webhookHandler (with_token token2 cfg) r downstream)
  ∧ redact <$> trace (webhookHandler (with_token token1 cfg) r downstream)
    = redact <$> trace (webhookHandler (with_token token2 cfg) r downstream).
Proof.
  unfold webhookHandler.
  change (logVerbose (with_token token1 cfg)) with (logVerbose cfg).
  change (logVerbose (with_token token2 cfg)) with (logVerbose cfg).
  destruct (negb _); [done |].
  destruct (_ || _); [done |].
  unfold io_ReadAll. destruct (Body r) as [body | err]; [| done].
  set (path := strings_TrimPrefix (URL_Path r) "/webhook/").
  destruct (json_Unmarshal body zero_ForgejoWebhook) as [webhook | err] eqn:Hjson.
  - pose proof (triggerBuild_token cfg token1 token2 path (branch webhook)
                  (HeadCommit.ID (HeadCommit webhook))
                  (HeadCommit.Message (HeadCommit webhook)) webhook downstream)
      as [Hended Htrace].
    destruct (triggerBuild (with_token token1 cfg) _ _ _ _ _ _) as [t1 o1] eqn:Hrun1.
    destruct (triggerBuild (with_token token2 cfg) _ _ _ _ _ _) as [t2 o2] eqn:Hrun2.
    simpl in Hended, Htrace. subst o2.
    destruct (logVerbose cfg); simpl; rewrite Hjson; simpl;
      rewrite commitShort_returns; simpl; rewrite Hrun1, Hrun2;
      destruct o1 as [[err |] | msg]; simpl;
      change (list_fmap event event redact) with (fmap (M := list) redact);
      by rewrite ?fmap_app, ?Htrace.
  - destruct (logVerbose cfg); simpl; by rewrite Hjson.
Qed.
End Token.

(** ** The outbound payload *)

(** The document [json.Marshal(payload)] yields: no field is ever left out. *)
Lemma json_Marshal_payload (br commit message : string) (webhook : ForgejoWebhook) :
  json_Marshal (payload br commit message webhook) =
    JObject
      [("commit", JString commit);
       ("branch", JString br);
       ("message", JString message);
       ("author",
         JObject
           [("name", JString (HeadCommit.Author.Name (HeadCommit.Author (HeadCommit webhook))));
            ("email", JString (HeadCommit.Author.Email (HeadCommit.Author (HeadCommit webhook))))]);
       ("env",
         JObject
           [("FORGEJO_PUSHER", JString (Pusher.Username (Pusher webhook)));
            ("FORGEJO_REPO", JString (Repository.FullName (Repository webhook)));
            ("FORGEJO_REPO_NAME", JString (Repository.Name (Repository webhook)))])]%string.
Proof.
  destruct webhook as [ref [name full] [id msg [aname aemail auser]] [pusher]].
  vm_compute. reflexivity.
Qed.

(** ** Requests that reach [triggerBuild] *)

Section Triggered.
Context `{Externals}.
Variable cfg : Config.
Variables (r : Request) (pipeline body : string) (webhook : ForgejoWebhook).
Hypothesis Hmethod : Method r = http_MethodPost.
Hypothesis Hpath : URL_Path r = "/webhook/" +:+ pipeline.
Hypothesis Hslug : pipeline ≠ "".
Hypothesis Hslug' : pipeline ≠ "webhook/".
Hypothesis Hbody : Body r = Ok body.
Hypothesis Hjson : json_Unmarshal body zero_ForgejoWebhook = Ok webhook.
Hypothesis Hurl : url_Parse (url cfg pipeline) = None.

(** Status 200 or 201 for a commit id of seven bytes or more: the success
    response. *)
Lemma webhookHandler_success (code : Z) (text : string) :
  code = 200%Z ∨ code = 201%Z →
  7 ≤ len (HeadCommit.ID (HeadCommit webhook)) →
  ended (webhookHandler cfg r (Ok {| StatusCode := code; respBody := text |}))
    = Return (JSON http_StatusOK
                {[ "status" := "success";
                   "message" := "Build triggered successfully";
                   "pipeline" := pipeline;
                   "branch" := branch webhook;
                   "commit" :=
                     if decide (7 < len (HeadCommit.ID (HeadCommit webhook)))
                     then first7 (HeadCommit.ID (HeadCommit webhook))
                     else HeadCommit.ID (HeadCommit webhook) ]}).
Proof.
  intros Hcode Hlen.
  destruct (webhookHandler_decoded cfg r (Ok {| StatusCode := code; respBody := text |})
              pipeline body webhook) as [-> _]; [done.. |].
  by rewrite triggerBuild_success.
Qed.

(** Status 200 or 201 for a shorter commit id: the handler panics in
    [triggerBuild] and writes no response. *)
Lemma webhookHandler_short_commit (code : Z) (text : string) :
  code = 200%Z ∨ code = 201%Z →
  len (HeadCommit.ID (HeadCommit webhook)) < 7 →
  ended (webhookHandler cfg r (Ok {| StatusCode := code; respBody := text |}))
    = Panic "slice bounds out of range".
Proof.
  intros Hcode Hlen.
  destruct (webhookHandler_decoded cfg r (Ok {| StatusCode := code; respBody := text |})
              pipeline body webhook) as [-> _]; [done.. |].
  by rewrite triggerBuild_short_commit.
Qed.

(** Any other status: 500 with the status and the downstream body. *)
Lemma webhookHandler_status_error (code : Z) (text : string) :
  code ≠ 200%Z → code ≠ 201%Z →
  ended (webhookHandler cfg r (Ok {| StatusCode := code; respBody := text |}))
    = Return (http_Error
                ("Failed to trigger build: "
                 +:+ ("buildkite API returned " +:+ fmt_d code +:+ ": " +:+ text))
                http_StatusInternalServerError).
Proof.
  intros H200 H201.
  destruct (webhookHandler_decoded cfg r (Ok {| StatusCode := code; respBody := text |})
              pipeline body webhook) as [-> _]; [done.. |].
  by rewrite triggerBuild_status_error.
Qed.

(** A transport failure: 500 with the transport error. *)
Lemma webhookHandler_transport_error (err : error) :
  ended (webhookHandler cfg r (Err err))
    = Return (http_Error ("Failed to trigger build: " +:+ ("request failed: " +:+ err))
                http_StatusInternalServerError).
Proof.
  destruct (webhookHandler_decoded cfg r (Err err) pipeline body webhook) as [-> _];
    [done.. |].
  by rewrite triggerBuild_transport_error.
Qed.

(** Exactly one outbound call, whatever the downstream answers. *)
Lemma webhookHandler_calls_once (downstream : result DownstreamResponse) :
  outbound_calls (trace (webhookHandler cfg r downstream))
    = [sent cfg pipeline (branch webhook) (HeadCommit.ID (HeadCommit webhook))
         (HeadCommit.Message (HeadCommit webhook)) webhook].
Proof.
  destruct (webhookHandler_decoded cfg r downstream pipeline body webhook) as [_ ->];
    [done.. |].
  by apply triggerBuild_calls_once.
Qed.
End Triggered.

Lemma contains_middle (before sub after : string) :
  contains (before +:+ sub +:+ after) sub.
Proof. by exists before, after. Qed.

Lemma contains_end (before sub : string) : contains (before +:+ sub) sub.
Proof.
  exists before, ""%string. f_equal.
  induction sub as [|c sub IH]; [done |].
  change (String c sub = String c (sub +:+ "")). by f_equal.
Qed.

Lemma contains_append (prefix s sub : string) :
  contains s sub → contains (prefix +:+ s) sub.
Proof.
  intros (before & after & ->). exists (prefix +:+ before), after.
  induction prefix as [|c prefix IH]; [done |].
  change (String c (prefix +:+ before +:+ sub +:+ after)
          = String c ((prefix +:+ before) +:+ sub +:+ after)).
  by f_equal.
Qed.

Lemma log_lines_redact (t : list event) : log_lines (redact <$> t) = log_lines t.
Proof.
  unfold log_lines. induction t as [|e t IH]; [done |].
  destruct e; rewrite fmap_cons; unfold redact at 1; cbn [omap list_omap]; by rewrite IH.
Qed.

(** * The specification's properties *)

(** C1.  The specification asks that a POST with a decodable body and a
    downstream status 200 or 201 always ends in the success response, also
    for a head commit id of fewer than seven bytes.  The handler does not:
    for the push with commit id ["abc"] and for the empty object (commit id
    [""]) it panics at [commit[:7]] in the last log line of [triggerBuild],
    after the outbound call was made, and writes no response. *)
Theorem short_commit_id_panics :
  json_Unmarshal (Externals := Double.externals) Double.short_body zero_ForgejoWebhook
    = Ok (Double.with_ref_and_id "refs/heads/main" "abc" zero_ForgejoWebhook)
  ∧ ended (webhookHandler (H := Double.externals) Double.config
             (Double.post "/webhook/my-pipeline" Double.short_body)
             (Double.answers 200 "{}"))
    = Panic "slice bounds out of range"
  ∧ ended (webhookHandler (H := Double.externals) Double.config
             (Double.post "/webhook/my-pipeline" "{}")
             (Double.answers 201 "{}"))
    = Panic "slice bounds out of range"
  ∧ length (outbound_calls (trace (webhookHandler (H := Double.externals) Double.config
                                     (Double.post "/webhook/my-pipeline" Double.short_body)
                                     (Double.answers 200 "{}")))) = 1.
Proof.
  split; [done |]. split; [| split].
  - by apply (webhookHandler_short_commit (H := Double.externals) Double.config _
                "my-pipeline" Double.short_body
                (Double.with_ref_and_id "refs/heads/main" "abc" zero_ForgejoWebhook));
      [.. | left | simpl; lia].
  - by apply (webhookHandler_short_commit (H := Double.externals) Double.config _
                "my-pipeline" "{}" zero_ForgejoWebhook);
      [.. | right | simpl; lia].
  - by rewrite (webhookHandler_calls_once (H := Double.externals) Double.config _
                  "my-pipeline" Double.short_body
                  (Double.with_ref_and_id "refs/heads/main" "abc" zero_ForgejoWebhook)).
Qed.

(** C2.  The push of ref ["refs/heads/main"], commit ["abc123def456"],
    repository ["user/my-repo"] and pusher ["john"], posted to
    [/webhook/my-pipeline]: the one outbound call carries the full commit id,
    the branch ["main"], the raw commit message, the two author fields and
    the three [env] entries, the short repository name being the third; on
    downstream status 200 or 201 the answer is 200 with the JSON object of
    status, message, pipeline, branch and the short commit ["abc123d"]. *)
Theorem sample_push_translated `{Externals} (cfg : Config) (r : Request)
    (body : string) (webhook : ForgejoWebhook) (code : Z) (text : string) :
  Method r = "POST" →
  URL_Path r = "/webhook/my-pipeline" →
  Body r = Ok body →
  json_Unmarshal body zero_ForgejoWebhook = Ok webhook →
  Ref webhook = "refs/heads/main" →
  HeadCommit.ID (HeadCommit webhook) = "abc123def456" →
  Repository.FullName (Repository webhook) = "user/my-repo" →
  Pusher.Username (Pusher webhook) = "john" →
  url_Parse (url cfg "my-pipeline") = None →
  code = 200%Z ∨ code = 201%Z →
  (∃ req p,
      outbound_calls
        (trace (webhookHandler cfg r (Ok {| StatusCode := code; respBody := text |})))
        = [req]
      ∧ out_Body req = json_Marshal p
      ∧ Commit p = "abc123def456"
      ∧ Branch p = "main"
      ∧ Message p = HeadCommit.Message (HeadCommit webhook)
      ∧ Env p !! "FORGEJO_PUSHER" = Some "john"
      ∧ Env p !! "FORGEJO_REPO" = Some "user/my-repo"
      ∧ Env p !! "FORGEJO_REPO_NAME" = Some (Repository.Name (Repository webhook))
      ∧ out_Body req =
          JObject
            [("commit", JString "abc123def456");
             ("branch", JString "main");
             ("message", JString (HeadCommit.Message (HeadCommit webhook)));
             ("author",
               JObject
                 [("name",
                    JString (HeadCommit.Author.Name (HeadCommit.Author (HeadCommit webhook))));
                  ("email",
                    JString (HeadCommit.Author.Email (HeadCommit.Author (HeadCommit webhook))))]);
             ("env",
               JObject
                 [("FORGEJO_PUSHER", JString "john");
                  ("FORGEJO_REPO", JString "user/my-repo");
                  ("FORGEJO_REPO_NAME", JString (Repository.Name (Repository webhook)))])]%string)
  ∧ ended (webhookHandler cfg r (Ok {| StatusCode := code; respBody := text |}))
    = Return (JSON 200
                {[ "status" := "success";
                   "message" := "Build triggered successfully";
                   "pipeline" := "my-pipeline";
                   "branch" := "main";
                   "commit" := "abc123d" ]}).
Proof.
  intros Hmethod Hpath Hbody Hjson Href Hid Hrepo Hpusher Hurl Hcode.
  assert (branch webhook = "main") as Hbranch by (unfold branch; by rewrite Href).
  split.
  - exists (sent cfg "my-pipeline" (branch webhook) (HeadCommit.ID (HeadCommit webhook))
              (HeadCommit.Message (HeadCommit webhook)) webhook),
           (payload (branch webhook) (HeadCommit.ID (HeadCommit webhook))
              (HeadCommit.Message (HeadCommit webhook)) webhook).
    split; [by apply (webhookHandler_calls_once cfg r "my-pipeline" body webhook) |].
    split; [done |].
    split; [done |]. split; [done |]. split; [done |].
    split; [by rewrite <- Hpusher |].
    split; [by rewrite <- Hrepo |].
    split; [done |].
    change (out_Body (sent _ _ _ _ _ _)) with
      (json_Marshal (payload (branch webhook) (HeadCommit.ID (HeadCommit webhook))
                       (HeadCommit.Message (HeadCommit webhook)) webhook)).
    by rewrite json_Marshal_payload, Hbranch, Hid, Hpusher, Hrepo.
  - rewrite (webhookHandler_success cfg r "my-pipeline" body webhook) by (done || by rewrite Hid; simpl; lia).
    rewrite Hbranch, Hid. done.
Qed.

Lemma sample_push_translated_witness :
  out_Body <$> outbound_calls
      (trace (webhookHandler (H := Double.externals) Double.config
                (Double.post "/webhook/my-pipeline" Double.push_body)
                (Double.answers 201 "{}")))
    = [JObject
         [("commit", JString "abc123def456");
          ("branch", JString "main");
          ("message", JString "Test commit");
          ("author",
            JObject [("name", JString "John Doe"); ("email", JString "john@example.com")]);
          ("env",
            JObject
              [("FORGEJO_PUSHER", JString "john");
               ("FORGEJO_REPO", JString "user/my-repo");
               ("FORGEJO_REPO_NAME", JString "my-repo")])]%string]
  ∧ ended (webhookHandler (H := Double.externals) Double.config
             (Double.post "/webhook/my-pipeline" Double.push_body)
             (Double.answers 201 "{}"))
    = Return (JSON 200
                {[ "status" := "success";
                   "message" := "Build triggered successfully";
                   "pipeline" := "my-pipeline";
                   "branch" := "main";
                   "commit" := "abc123d" ]}).
Proof.
  destruct (sample_push_translated (H := Double.externals) Double.config
              (Double.post "/webhook/my-pipeline" Double.push_body)
              Double.push_body Double.push_webhook 201 "{}")
    as [(req & p & Hcalls & _ & _ & _ & _ & _ & _ & _ & Hdoc) Hended];
    [reflexivity.. | right; reflexivity |].
  split; [| exact Hended].
  unfold Double.answers. rewrite Hcalls. simpl. rewrite Hdoc. reflexivity.
Defined.

(** C3.  The specification has every downstream status 200 or 201
    classified as success.  [triggerBuild] does so only for a commit id of
    seven bytes or more: it passes the status test and then cuts
    [commit[:7]] for its success log line, so for the commit id ["abc"] a
    downstream 200, and a 201 alike, ends in a panic instead of the [nil]
    that the seven-byte id gets from the same answers, and the handler
    writes no response.  The other two parts of the claim, the error for
    any other status and for a transport failure, hold
    ([triggerBuild_status_error], [triggerBuild_transport_error]). *)
Theorem ok_status_not_success_for_short_commit :
  ended (triggerBuild (H := Double.externals) Double.config "my-pipeline" "main" "abc" ""
           (Double.with_ref_and_id "refs/heads/main" "abc" zero_ForgejoWebhook)
           (Double.answers 200 "{}"))
    = Panic "slice bounds out of range"
  ∧ ended (triggerBuild (H := Double.externals) Double.config "my-pipeline" "main" "abc" ""
             (Double.with_ref_and_id "refs/heads/main" "abc" zero_ForgejoWebhook)
             (Double.answers 201 "{}"))
    = Panic "slice bounds out of range"
  ∧ ended (triggerBuild (H := Double.externals) Double.config "my-pipeline" "main"
             "abc1234" ""
             (Double.with_ref_and_id "refs/heads/main" "abc1234" zero_ForgejoWebhook)
             (Double.answers 200 "{}"))
    = Return None
  ∧ ended (triggerBuild (H := Double.externals) Double.config "my-pipeline" "main"
             "abc1234" ""
             (Double.with_ref_and_id "refs/heads/main" "abc1234" zero_ForgejoWebhook)
             (Double.answers 201 "{}"))
    = Return None
  ∧ ended (webhookHandler (H := Double.externals) Double.config
             (Double.post "/webhook/my-pipeline" Double.short_body)
             (Double.answers 201 "{}"))
    = Panic "slice bounds out of range".
Proof.
  split; [| split; [| split; [| split]]].
  - apply triggerBuild_short_commit; [reflexivity | by left | simpl; lia].
  - apply triggerBuild_short_commit; [reflexivity | by right | simpl; lia].
  - apply triggerBuild_success; [reflexivity | by left | simpl; lia].
  - apply triggerBuild_success; [reflexivity | by right | simpl; lia].
  - by apply (webhookHandler_short_commit (H := Double.externals) Double.config _
                "my-pipeline" Double.short_body
                (Double.with_ref_and_id "refs/heads/main" "abc" zero_ForgejoWebhook));
      [.. | right | simpl; lia].
Qed.

(** C4.  A ref that begins with [refs/heads/] gives the rest of the ref as
    the branch; every other ref is the branch as it stands.  [branch] is a
    total function: nothing is raised. *)
Theorem branch_strips_heads_prefix (webhook : ForgejoWebhook) :
  (∀ rest, Ref webhook = "refs/heads/" +:+ rest → branch webhook = rest)
  ∧ ((∀ rest, Ref webhook ≠ "refs/heads/" +:+ rest) → branch webhook = Ref webhook).
Proof.
  unfold branch. split.
  - intros rest ->. apply strings_TrimPrefix_prefixed.
  - apply strings_TrimPrefix_other.
Qed.

Lemma branch_strips_heads_prefix_witness :
  branch (Double.with_ref_and_id "refs/heads/feature/login" "abc123def456"
            zero_ForgejoWebhook) = "feature/login"
  ∧ branch (Double.with_ref_and_id "refs/tags/v1.0.0" "abc123def456" zero_ForgejoWebhook)
    = "refs/tags/v1.0.0".
Proof.
  split.
  - apply (proj1 (branch_strips_heads_prefix
                    (Double.with_ref_and_id "refs/heads/feature/login" "abc123def456"
                       zero_ForgejoWebhook))).
    reflexivity.
  - apply (proj2 (branch_strips_heads_prefix
                    (Double.with_ref_and_id "refs/tags/v1.0.0" "abc123def456"
                       zero_ForgejoWebhook))).
    intros rest. discriminate.
Defined.

(** C5.  For a commit id of at least seven bytes the short commit is its
    first seven bytes; for a shorter id it is the id unchanged.  Either way
    [commitShort] returns. *)
Theorem commitShort_first_seven (webhook : ForgejoWebhook) :
  (7 ≤ len (HeadCommit.ID (HeadCommit webhook)) →
     commitShort webhook = mret (first7 (HeadCommit.ID (HeadCommit webhook)))
     ∧ len (first7 (HeadCommit.ID (HeadCommit webhook))) = 7
     ∧ ∃ rest, HeadCommit.ID (HeadCommit webhook)
               = first7 (HeadCommit.ID (HeadCommit webhook)) +:+ rest)
  ∧ (len (HeadCommit.ID (HeadCommit webhook)) < 7 →
     commitShort webhook = mret (HeadCommit.ID (HeadCommit webhook))).
Proof.
  rewrite commitShort_returns. split.
  - intros Hlen. split; [| split].
    + destruct (decide (7 < _)) as [Hlt | Hge]; [done |].
      assert (7 = len (HeadCommit.ID (HeadCommit webhook))) as Hseven by lia.
      pose proof (substring_all (HeadCommit.ID (HeadCommit webhook))) as Hall.
      rewrite <- Hseven in Hall. unfold first7. by rewrite Hall.
    + by apply len_substring.
    + eexists. by apply substring_split.
  - intros Hlen. destruct (decide (7 < _)); [lia | done].
Qed.

Lemma commitShort_first_seven_witness :
  commitShort Double.push_webhook = mret "abc123d"
  ∧ commitShort (Double.with_ref_and_id "refs/heads/main" "abc1234" zero_ForgejoWebhook)
    = mret "abc1234"
  ∧ commitShort (Double.with_ref_and_id "refs/heads/main" "abc" zero_ForgejoWebhook)
    = mret "abc".
Proof.
  split; [| split].
  - apply (proj1 (commitShort_first_seven Double.push_webhook)). simpl. lia.
  - apply (proj1 (commitShort_first_seven
                    (Double.with_ref_and_id "refs/heads/main" "abc1234" zero_ForgejoWebhook))).
    simpl. lia.
  - apply (proj2 (commitShort_first_seven
                    (Double.with_ref_and_id "refs/heads/main" "abc" zero_ForgejoWebhook))).
    simpl. lia.
Defined.

(** C6.  A POST whose body [json.Unmarshal] rejects is answered 400 and no
    outbound call is made: with a pipeline slug in the path the answer is
    ["Bad request: invalid JSON"], without one the request was refused
    before its body was read. *)
Theorem invalid_json_rejected `{Externals} (cfg : Config) (r : Request)
    (downstream : result DownstreamResponse) (pipeline body : string) (err : error) :
  Method r = "POST" →
  URL_Path r = "/webhook/" +:+ pipeline →
  Body r = Ok body →
  json_Unmarshal body zero_ForgejoWebhook = Err err →
  ended (webhookHandler cfg r downstream)
    = Return (PlainText 400
                (if String.eqb pipeline "" || String.eqb pipeline "webhook/"
                 then "Pipeline slug required in URL: /webhook/<pipeline-slug>"
                 else "Bad request: invalid JSON"))
  ∧ outbound_calls (trace (webhookHandler cfg r downstream)) = [].
Proof.
  intros Hmethod Hpath Hbody Hjson.
  destruct (String.eqb_spec pipeline "") as [-> | Hslug].
  { by rewrite webhookHandler_no_slug by (done || by rewrite Hpath). }
  destruct (String.eqb_spec pipeline "webhook/") as [-> | Hslug'].
  { unfold webhookHandler. by rewrite Hmethod, Hpath. }
  pose proof (webhookHandler_undecoded cfg r downstream pipeline
                Hmethod Hpath Hslug Hslug') as Hrun.
  rewrite Hbody in Hrun. by apply (Hrun err).
Qed.

Lemma invalid_json_rejected_witness :
  ended (webhookHandler (H := Double.externals) Double.config
           (Double.post "/webhook/my-pipeline" "not json") (Double.answers 200 "{}"))
    = Return (PlainText 400 "Bad request: invalid JSON")
  ∧ outbound_calls
      (trace (webhookHandler (H := Double.externals) Double.config
                (Double.post "/webhook/my-pipeline" "not json") (Double.answers 200 "{}")))
    = [].
Proof.
  apply (invalid_json_rejected (H := Double.externals) Double.config
           (Double.post "/webhook/my-pipeline" "not json") (Double.answers 200 "{}")
           "my-pipeline" "not json"
           "invalid character 'o' in literal null (expecting 'u')");
    reflexivity.
Defined.

(** C7, as the code has it.  A POST to [/webhook/], the route without a
    pipeline slug, is answered 400 with the message
    ["Pipeline slug required in URL: /webhook/<pipeline-slug>"], whatever the
    body holds: the body is not read and no outbound call is made. *)
Theorem missing_slug_rejected `{Externals} (cfg : Config) (r : Request)
    (downstream : result DownstreamResponse) :
  Method r = "POST" →
  URL_Path r = "/webhook/" →
  ended (webhookHandler cfg r downstream)
    = Return (PlainText 400 "Pipeline slug required in URL: /webhook/<pipeline-slug>")
  ∧ trace (webhookHandler cfg r downstream) = [].
Proof.
  intros Hmethod Hpath. by rewrite webhookHandler_no_slug by (done || by rewrite Hpath).
Qed.

Lemma missing_slug_rejected_witness :
  ended (webhookHandler (H := Double.externals) Double.config
           (Double.post "/webhook/" Double.push_body) (Double.answers 200 "{}"))
    = Return (PlainText 400 "Pipeline slug required in URL: /webhook/<pipeline-slug>")
  ∧ trace (webhookHandler (H := Double.externals) Double.config
             (Double.post "/webhook/" Double.push_body) (Double.answers 200 "{}"))
    = [].
Proof.
  apply (missing_slug_rejected (H := Double.externals) Double.config
           (Double.post "/webhook/" Double.push_body) (Double.answers 200 "{}"));
    reflexivity.
Defined.

(** C7 as the specification words it fails twice.  The message of the 400 is
    not ["pipeline identifier required"], and a request to [/webhook/] whose
    method is not POST is answered 405, not 400: the method is tested before
    the path. *)
Lemma missing_slug_message_differs :
  URL_Path (Double.post "/webhook/" "{}") = "/webhook/"
  ∧ ended (webhookHandler (H := Double.externals) Double.config
             (Double.post "/webhook/" "{}") (Double.answers 200 "{}"))
    ≠ Return (PlainText 400 "pipeline identifier required")
  ∧ URL_Path (Double.get "/webhook/") = "/webhook/"
  ∧ ended (webhookHandler (H := Double.externals) Double.config
             (Double.get "/webhook/") (Double.answers 200 "{}"))
    = Return (PlainText 405 "Method not allowed").
Proof. by repeat split. Qed.

(** C8.  A request whose method is not POST is answered 405 with the plain
    text ["Method not allowed"], whatever its path; nothing else happens: the
    body is neither read nor decoded and no outbound call is made. *)
Theorem method_not_allowed `{Externals} (cfg : Config) (r : Request)
    (downstream : result DownstreamResponse) :
  Method r ≠ "POST" →
  ended (webhookHandler cfg r downstream) = Return (PlainText 405 "Method not allowed")
  ∧ trace (webhookHandler cfg r downstream) = [].
Proof. intros Hmethod. by rewrite webhookHandler_not_post. Qed.

Lemma method_not_allowed_witness :
  ended (webhookHandler (H := Double.externals) Double.config
           (Double.get "/webhook/my-pipeline") (Double.answers 200 "{}"))
    = Return (PlainText 405 "Method not allowed")
  ∧ trace (webhookHandler (H := Double.externals) Double.config
             (Double.get "/webhook/my-pipeline") (Double.answers 200 "{}"))
    = [].
Proof.
  apply (method_not_allowed (H := Double.externals) Double.config
           (Double.get "/webhook/my-pipeline") (Double.answers 200 "{}")).
  discriminate.
Defined.

(** C9.  The API token never reaches the caller.  Two runs that differ in
    the token alone, on the same request and with the same downstream
    outcome, end alike (the same response, or the same panic), and their
    traces agree once the [Authorization] header of the outbound call is
    taken out: the log lines agree too. *)
Theorem token_never_surfaces `{Externals} (org token1 token2 listen : string)
    (verbose : bool) (r : Request) (downstream : result DownstreamResponse) :
  let cfg1 := {| buildkiteOrg := org; buildkiteToken := token1;
                 port := listen; logVerbose := verbose |} in
  let cfg2 := {| buildkiteOrg := org; buildkiteToken := token2;
                 port := listen; logVerbose := verbose |} in
  ended (webhookHandler cfg1 r downstream) = ended (webhookHandler cfg2 r downstream)
  ∧ redact <$> trace (webhookHandler cfg1 r downstream)
    = redact <$> trace (webhookHandler cfg2 r downstream)
  ∧ log_lines (trace (webhookHandler cfg1 r downstream))
    = log_lines (trace (webhookHandler cfg2 r downstream)).
Proof.
  intros cfg1 cfg2.
  destruct (webhookHandler_token cfg1 token1 token2 r downstream) as [Hended Htrace].
  change (with_token token1 cfg1) with cfg1 in Hended, Htrace.
  change (with_token token2 cfg1) with cfg2 in Hended, Htrace.
  split; [done |]. split; [done |].
  rewrite <- (log_lines_redact (trace (webhookHandler cfg1 r downstream))).
  rewrite <- (log_lines_redact (trace (webhookHandler cfg2 r downstream))).
  by rewrite Htrace.
Qed.

(** C10.  The payload always has its author.  The [Author] pointer is built
    for every webhook, from [headCommit.author.name] and
    [headCommit.author.email] (empty strings in the zero value, which is what
    a decoder leaves of fields the body does not mention), so [omitempty]
    never drops the field: the marshalled document has the member ["author"]
    after ["message"], and the body of every outbound call is that
    document. *)
Theorem author_always_sent `{Externals} (cfg : Config)
    (pipeline br commit message : string) (webhook : ForgejoWebhook)
    (downstream : result DownstreamResponse) :
  let name := HeadCommit.Author.Name (HeadCommit.Author (HeadCommit webhook)) in
  let email := HeadCommit.Author.Email (HeadCommit.Author (HeadCommit webhook)) in
  Author (payload br commit message webhook) = Some {| Name := name; Email := email |}
  ∧ (∃ env,
       json_Marshal (payload br commit message webhook) =
         JObject
           [("commit", JString commit);
            ("branch", JString br);
            ("message", JString message);
            ("author", JObject [("name", JString name); ("email", JString email)]);
            ("env", env)]%string)
  ∧ out_Body <$> outbound_calls
        (trace (triggerBuild cfg pipeline br commit message webhook downstream))
    = match url_Parse (url cfg pipeline) with
      | None => [json_Marshal (payload br commit message webhook)]
      | Some _ => []
      end
  ∧ Author (payload br commit message zero_ForgejoWebhook)
    = Some {| Name := ""; Email := "" |}.
Proof.
  intros name email. split; [done |]. split; [| split; [| done]].
  - rewrite json_Marshal_payload. eauto.
  - destruct (url_Parse (url cfg pipeline)) as [err |] eqn:Hurl.
    + by destruct (triggerBuild_bad_url cfg pipeline br commit message webhook
                     downstream err Hurl) as [_ ->].
    + by rewrite triggerBuild_calls_once.
Qed.

(** * Further properties of the handler *)

(** ** Any path *)

Section AnyPath.
Context `{Externals}.
Variable cfg : Config.

(** What [strings.TrimPrefix] returns tells what it was given. *)
Lemma strings_TrimPrefix_inv (s prefix rest : string) :
  strings_TrimPrefix s prefix = rest → s = prefix +:+ rest ∨ s = rest.
Proof.
  unfold strings_TrimPrefix. destruct (strings_HasPrefix s prefix) eqn:Hp; [| by right].
  apply strings_HasPrefix_spec in Hp as [rest' ->].
  pose proof (strings_TrimPrefix_prefixed prefix rest') as Htrim.
  unfold strings_TrimPrefix in Htrim.
  assert (strings_HasPrefix (prefix +:+ rest') prefix = true) as Hp
    by (apply strings_HasPrefix_spec; eauto).
  rewrite Hp in Htrim. rewrite Htrim. intros ->. by left.
Qed.

(** The handler looks at the path only through what [strings.TrimPrefix]
    leaves of it. *)
Lemma webhookHandler_path_only (r r' : Request) (downstream : result DownstreamResponse) :
  Method r = Method r' →
  strings_TrimPrefix (URL_Path r) "/webhook/" = strings_TrimPrefix (URL_Path r') "/webhook/" →
  Body r = Body r' →
  webhookHandler cfg r downstream = webhookHandler cfg r' downstream.
Proof.
  intros Hm Hp Hb. unfold webhookHandler, io_ReadAll. by rewrite Hm, Hp, Hb.
Qed.

(** The same request, its path written as [/webhook/<slug>]. *)
Lemma webhookHandler_normal (r : Request) (downstream : result DownstreamResponse) :
  webhookHandler cfg r downstream =
    webhookHandler cfg
      {| Method := Method r;
         URL_Path := "/webhook/" +:+ strings_TrimPrefix (URL_Path r) "/webhook/";
         Body := Body r |}
      downstream.
Proof.
  apply webhookHandler_path_only; [done | | done].
  simpl. by rewrite strings_TrimPrefix_prefixed.
Qed.

(** The outbound calls of a run, read off the request. *)
Lemma webhookHandler_calls (r : Request) (downstream : result DownstreamResponse) :
  outbound_calls (trace (webhookHandler cfg r downstream)) =
    let path := strings_TrimPrefix (URL_Path r) "/webhook/" in
    if negb (String.eqb (Method r) http_MethodPost) then []
    else if String.eqb path "" || String.eqb path "webhook/" then []
    else
      match Body r with
      | Err _ => []
      | Ok body =>
          match json_Unmarshal body zero_ForgejoWebhook with
          | Err _ => []
          | Ok webhook =>
              match url_Parse (url cfg path) with
              | Some _ => []
              | None =>
                  [sent cfg path (branch webhook) (HeadCommit.ID (HeadCommit webhook))
                     (HeadCommit.Message (HeadCommit webhook)) webhook]
              end
          end
      end.
Proof.
  cbv zeta. set (path := strings_TrimPrefix (URL_Path r) "/webhook/").
  destruct (String.eqb_spec (Method r) http_MethodPost) as [Hm | Hm]; simpl negb; cbv iota.
  2: { by rewrite webhookHandler_not_post. }
  destruct (String.eqb_spec path "") as [Hslug | Hslug]; simpl orb; cbv iota.
  { by rewrite webhookHandler_no_slug. }
  destruct (String.eqb_spec path "webhook/") as [Hslug' | Hslug']; cbv iota.
  { unfold webhookHandler. fold path. by rewrite Hm, Hslug'. }
  rewrite webhookHandler_normal. fold path.
  set (r' := {| Method := Method r; URL_Path := "/webhook/" +:+ path; Body := Body r |}).
  pose proof (webhookHandler_undecoded cfg r' downstream path Hm eq_refl Hslug Hslug')
    as Hun.
  change (Body r') with (Body r) in Hun.
  destruct (Body r) as [body | err] eqn:Hbody; [| by destruct Hun].
  destruct (json_Unmarshal body zero_ForgejoWebhook) as [webhook | err] eqn:Hjson.
  2: { by destruct (Hun err eq_refl). }
  destruct (webhookHandler_decoded cfg r' downstream path body webhook) as [_ ->];
    [done.. |].
  destruct (url_Parse (url cfg path)) as [err |] eqn:Hurl.
  - by destruct (triggerBuild_bad_url cfg path (branch webhook)
                   (HeadCommit.ID (HeadCommit webhook))
                   (HeadCommit.Message (HeadCommit webhook)) webhook downstream err Hurl).
  - by apply triggerBuild_calls_once.
Qed.
End AnyPath.

(** X1.  No retry and no second call: whatever the request and whatever the
    downstream answers, a run makes at most one outbound call, and the calls
    it makes do not depend on the answer. *)
Theorem at_most_one_outbound_call `{Externals} (cfg : Config) (r : Request)
    (downstream downstream' : result DownstreamResponse) :
  length (outbound_calls (trace (webhookHandler cfg r downstream))) ≤ 1
  ∧ outbound_calls (trace (webhookHandler cfg r downstream))
    = outbound_calls (trace (webhookHandler cfg r downstream')).
Proof.
  rewrite !webhookHandler_calls. split; [| done]. cbv zeta.
  repeat (case_match; simpl; try lia).
Qed.

(** X2.  What is sent downstream.  Every outbound call answers a POST whose
    body was decoded; it is a POST to the builds URL of the configured
    organization and of the pipeline named in the path, it carries exactly
    two headers, the bearer token and the JSON content type, and its body is
    the marshalled payload of the decoded webhook. *)
Theorem outbound_request_shape `{Externals} (cfg : Config) (r : Request)
    (downstream : result DownstreamResponse) (req : OutboundRequest) :
  req ∈ outbound_calls (trace (webhookHandler cfg r downstream)) →
  Method r = "POST"
  ∧ out_Method req = "POST"
  ∧ out_URL req
    = "https://api.buildkite.com/v2/organizations/" +:+ buildkiteOrg cfg
        +:+ "/pipelines/" +:+ strings_TrimPrefix (URL_Path r) "/webhook/" +:+ "/builds"
  ∧ out_Header req
    = {[ "Authorization" := "Bearer " +:+ buildkiteToken cfg;
         "Content-Type" := "application/json" ]}
  ∧ ∃ body webhook,
      Body r = Ok body
      ∧ json_Unmarshal body zero_ForgejoWebhook = Ok webhook
      ∧ out_Body req
        = json_Marshal (payload (branch webhook) (HeadCommit.ID (HeadCommit webhook))
                          (HeadCommit.Message (HeadCommit webhook)) webhook).
Proof.
  rewrite webhookHandler_calls. cbv zeta.
  destruct (String.eqb_spec (Method r) http_MethodPost) as [Hm | Hm]; simpl negb; cbv iota;
    [| by intros ?%elem_of_nil].
  destruct (_ || _); [by intros ?%elem_of_nil |].
  destruct (Body r) as [body | err]; [| by intros ?%elem_of_nil].
  destruct (json_Unmarshal body zero_ForgejoWebhook) as [webhook | err] eqn:Hjson;
    [| by intros ?%elem_of_nil].
  destruct (url_Parse _); [by intros ?%elem_of_nil |].
  intros ->%list_elem_of_singleton.
  split; [done |]. split; [done |]. split; [done |]. split; [| by eauto].
  unfold sent, Header_Set, out_Header.
  rewrite <- insert_empty. by apply insert_insert_ne.
Qed.

Lemma outbound_request_shape_witness :
  out_URL <$> outbound_calls
      (trace (webhookHandler (H := Double.externals) Double.config
                (Double.post "/webhook/my-pipeline" Double.push_body)
                (Double.answers 201 "{}")))
    = ["https://api.buildkite.com/v2/organizations/my-org/pipelines/my-pipeline/builds"%string]
  ∧ (λ req, out_Header req !! "Authorization"%string) <$> outbound_calls
      (trace (webhookHandler (H := Double.externals) Double.config
                (Double.post "/webhook/my-pipeline" Double.push_body)
                (Double.answers 201 "{}")))
    = [Some "Bearer bkua_0123456789abcdef"%string].
Proof.
  pose proof (webhookHandler_calls_once (H := Double.externals) Double.config
                (Double.post "/webhook/my-pipeline" Double.push_body)
                "my-pipeline" Double.push_body Double.push_webhook
                eq_refl eq_refl ltac:(discriminate) ltac:(discriminate) eq_refl eq_refl eq_refl
                (Double.answers 201 "{}")) as Hcalls.
  destruct (outbound_request_shape (H := Double.externals) Double.config
              (Double.post "/webhook/my-pipeline" Double.push_body)
              (Double.answers 201 "{}")
              (sent Double.config "my-pipeline" (branch Double.push_webhook)
                 (HeadCommit.ID (HeadCommit Double.push_webhook))
                 (HeadCommit.Message (HeadCommit Double.push_webhook)) Double.push_webhook))
    as (_ & _ & Hurl & Hheader & _).
  { rewrite Hcalls. apply list_elem_of_singleton. reflexivity. }
  rewrite Hcalls. cbn [fmap list_fmap]. rewrite Hurl, Hheader. split; reflexivity.
Defined.

(** ** How a run ends *)

Section Ended.
Context `{Externals}.
Variable cfg : Config.

(** How a run ends, read off the request and the downstream answer. *)
Lemma webhookHandler_ended (r : Request) (downstream : result DownstreamResponse) :
  ended (webhookHandler cfg r downstream) =
    let path := strings_TrimPrefix (URL_Path r) "/webhook/" in
    if negb (String.eqb (Method r) http_MethodPost) then
      Return (PlainText 405 "Method not allowed")
    else if String.eqb path "" || String.eqb path "webhook/" then
      Return (PlainText 400 "Pipeline slug required in URL: /webhook/<pipeline-slug>")
    else
      match Body r with
      | Err _ => Return (PlainText 400 "Bad request")
      | Ok body =>
          match json_Unmarshal body zero_ForgejoWebhook with
          | Err _ => Return (PlainText 400 "Bad request: invalid JSON")
          | Ok webhook =>
              match url_Parse (url cfg path), downstream with
              | Some err, _ =>
                  Return (PlainText 500
                            ("Failed to trigger build: failed to create request: " +:+ err))
              | None, Err err =>
                  Return (PlainText 500
                            ("Failed to trigger build: request failed: " +:+ err))
              | None, Ok resp =>
                  if negb (StatusCode resp =? 201)%Z && negb (StatusCode resp =? 200)%Z
                  then
                    Return (PlainText 500
                              ("Failed to trigger build: buildkite API returned "
                               +:+ fmt_d (StatusCode resp) +:+ ": " +:+ respBody resp))
                  else if decide (7 ≤ len (HeadCommit.ID (HeadCommit webhook)))
                  then
                    Return (JSON 200
                              {[ "status" := "success";
                                 "message" := "Build triggered successfully";
                                 "pipeline" := path;
                                 "branch" := branch webhook;
                                 "commit" :=
                                   if decide (7 < len (HeadCommit.ID (HeadCommit webhook)))
                                   then first7 (HeadCommit.ID (HeadCommit webhook))
                                   else HeadCommit.ID (HeadCommit webhook) ]})
                  else Panic "slice bounds out of range"
              end
          end
      end.
Proof.
  cbv zeta. set (path := strings_TrimPrefix (URL_Path r) "/webhook/").
  destruct (String.eqb_spec (Method r) http_MethodPost) as [Hm | Hm]; simpl negb; cbv iota.
  2: { by rewrite webhookHandler_not_post. }
  destruct (String.eqb_spec path "") as [Hslug | Hslug]; simpl orb; cbv iota.
  { by rewrite webhookHandler_no_slug. }
  destruct (String.eqb_spec path "webhook/") as [Hslug' | Hslug']; cbv iota.
  { unfold webhookHandler. fold path. by rewrite Hm, Hslug'. }
  rewrite webhookHandler_normal. fold path.
  set (r' := {| Method := Method r; URL_Path := "/webhook/" +:+ path; Body := Body r |}).
  pose proof (webhookHandler_undecoded cfg r' downstream path Hm eq_refl Hslug Hslug')
    as Hun.
  change (Body r') with (Body r) in Hun.
  destruct (Body r) as [body | err] eqn:Hbody; [| by destruct Hun].
  destruct (json_Unmarshal body zero_ForgejoWebhook) as [webhook | err] eqn:Hjson.
  2: { by destruct (Hun err eq_refl). }
  destruct (url_Parse (url cfg path)) as [err |] eqn:Hurl.
  { destruct (webhookHandler_decoded cfg r' downstream path body webhook) as [-> _];
      [done.. |].
    by destruct (triggerBuild_bad_url cfg path (branch webhook)
                   (HeadCommit.ID (HeadCommit webhook))
                   (HeadCommit.Message (HeadCommit webhook)) webhook downstream err Hurl)
      as [-> _]. }
  destruct downstream as [[code text] | err].
  2: { by rewrite (webhookHandler_transport_error cfg r' path body webhook). }
  cbn [StatusCode respBody].
  destruct (negb (code =? 201)%Z && negb (code =? 200)%Z) eqn:Htest.
  { rewrite (webhookHandler_status_error cfg r' path body webhook); [done.. | |];
      intros ->; by vm_compute in Htest. }
  apply (status_test code) in Htest.
  destruct (decide (7 ≤ len (HeadCommit.ID (HeadCommit webhook)))) as [Hlen | Hlen].
  - by rewrite (webhookHandler_success cfg r' path body webhook).
  - rewrite (webhookHandler_short_commit cfg r' path body webhook); [done.. | lia].
Qed.
End Ended.

(** X3.  Exactly four paths make a POST fail for want of a pipeline slug:
    the empty path, [/webhook/], and the two paths that leave [webhook/]
    after the prefix is cut, [webhook/] and [/webhook/webhook/].  So a
    pipeline whose slug is [webhook/] cannot be triggered. *)
Theorem slug_required_iff `{Externals} (cfg : Config) (r : Request)
    (downstream : result DownstreamResponse) :
  Method r = "POST" →
  ended (webhookHandler cfg r downstream)
    = Return (PlainText 400 "Pipeline slug required in URL: /webhook/<pipeline-slug>")
  ↔ slugless (URL_Path r).
Proof.
  intros Hm. rewrite webhookHandler_ended. cbv zeta. rewrite Hm. simpl negb. cbv iota.
  destruct (String.eqb_spec (strings_TrimPrefix (URL_Path r) "/webhook/") "")
    as [Hslug | Hslug]; simpl orb; cbv iota.
  { split; [intros _ | done].
    apply strings_TrimPrefix_inv in Hslug as [-> | ->]; unfold slugless; auto. }
  destruct (String.eqb_spec (strings_TrimPrefix (URL_Path r) "/webhook/") "webhook/")
    as [Hslug' | Hslug']; cbv iota.
  { split; [intros _ | done].
    apply strings_TrimPrefix_inv in Hslug' as [-> | ->]; unfold slugless; auto. }
  split.
  - repeat case_match; discriminate.
  - intros [Hp | [Hp | [Hp | Hp]]]; rewrite Hp in Hslug, Hslug'; by vm_compute in Hslug, Hslug'.
Qed.

Lemma slug_required_iff_witness :
  ended (webhookHandler (H := Double.externals) Double.config
           (Double.post "/webhook/webhook/" Double.push_body) (Double.answers 200 "{}"))
    = Return (PlainText 400 "Pipeline slug required in URL: /webhook/<pipeline-slug>")
  ∧ ¬ slugless "/webhook/my-pipeline".
Proof.
  split.
  - apply (slug_required_iff (H := Double.externals) Double.config
             (Double.post "/webhook/webhook/" Double.push_body) (Double.answers 200 "{}")).
    + reflexivity.
    + unfold slugless. simpl. auto.
  - intros Hslugless.
    apply (slug_required_iff (H := Double.externals) Double.config
             (Double.post "/webhook/my-pipeline" "not json") (Double.answers 200 "{}")
             eq_refl) in Hslugless.
    discriminate Hslugless.
Defined.

(** ** Traces *)

Section Traces.
Context `{Externals}.
Variable cfg : Config.

Lemma slugless_spec (path : string) :
  slugless path
  ↔ strings_TrimPrefix path "/webhook/" = "" ∨ strings_TrimPrefix path "/webhook/" = "webhook/".
Proof.
  split.
  - intros [-> | [-> | [-> | ->]]]; vm_compute; auto.
  - intros [Hp | Hp]; apply strings_TrimPrefix_inv in Hp as [-> | ->];
      unfold slugless; auto.
Qed.

(** The events of [triggerBuild], in order. *)
Lemma triggerBuild_trace (pipeline br commit message : string) (webhook : ForgejoWebhook)
    (downstream : result DownstreamResponse) :
  trace (triggerBuild cfg pipeline br commit message webhook downstream) =
    (if logVerbose cfg
     then [Printf "🔍 Debug: buildkiteOrg='%s', pipeline='%s'"
             [Str (buildkiteOrg cfg); Str pipeline];
           Printf "🔍 Debug: URL='%s'" [Str (url cfg pipeline)];
           Printf "📤 Buildkite payload: %s"
             [Doc (json_Marshal (payload br commit message webhook))]]
     else [])
    ++ match url_Parse (url cfg pipeline) with
       | Some _ => []
       | None =>
           Do (sent cfg pipeline br commit message webhook)
           :: match downstream with
              | Err _ => []
              | Ok resp =>
                  if negb (StatusCode resp =? http_StatusCreated)%Z
                     && negb (StatusCode resp =? http_StatusOK)%Z
                  then []
                  else
                    (if logVerbose cfg
                     then [Printf "📥 Buildkite response: %s" [Str (respBody resp)]]
                     else [])
                    ++ (if decide (7 ≤ len commit)
                        then [Printf "✅ Build triggered: %s/%s (branch: %s, commit: %s)"
                                [Str (buildkiteOrg cfg); Str pipeline; Str br;
                                 Str (substring 0 7 commit)]]
                        else [])
              end
       end.
Proof.
  rewrite triggerBuild_sent.
  destruct (url_Parse (url cfg pipeline)) as [err |]; [by destruct (logVerbose cfg) |].
  destruct downstream as [[code text] | err]; [| by destruct (logVerbose cfg)].
  simpl.
  destruct (negb (code =? http_StatusCreated)%Z && negb (code =? http_StatusOK)%Z);
    [by destruct (logVerbose cfg) |].
  unfold slice_to.
  by destruct (decide (7 ≤ len commit)); destruct (logVerbose cfg).
Qed.

(** The events of the handler once the body is decoded, in order. *)
Lemma webhookHandler_decoded_trace (r : Request) (downstream : result DownstreamResponse)
    (body : string) (webhook : ForgejoWebhook) :
  Method r = http_MethodPost →
  ¬ slugless (URL_Path r) →
  Body r = Ok body →
  json_Unmarshal body zero_ForgejoWebhook = Ok webhook →
  let build :=
    triggerBuild cfg (strings_TrimPrefix (URL_Path r) "/webhook/") (branch webhook)
      (HeadCommit.ID (HeadCommit webhook)) (HeadCommit.Message (HeadCommit webhook))
      webhook downstream in
  trace (webhookHandler cfg r downstream) =
    ReadAll
    :: (if logVerbose cfg then [Printf "📦 Received payload: %s" [Str body]] else [])
    ++ Unmarshal body
    :: Printf "📨 Webhook: repo=%s, branch=%s, commit=%s, author=%s"
         [Str (Repository.FullName (Repository webhook)); Str (branch webhook);
          Str (if decide (7 < len (HeadCommit.ID (HeadCommit webhook)))
               then first7 (HeadCommit.ID (HeadCommit webhook))
               else HeadCommit.ID (HeadCommit webhook));
          Str (Pusher.Username (Pusher webhook))]
    :: trace build
    ++ match ended build with
       | Return (Some err) => [Printf "❌ Failed to trigger build: %v" [Str err]]
       | _ => []
       end.
Proof.
  intros Hm Hslug Hbody Hjson build. subst build.
  set (path := strings_TrimPrefix (URL_Path r) "/webhook/").
  assert (path ≠ "" ∧ path ≠ "webhook/") as [Hne Hne'].
  { split; intros Hp; apply Hslug, slugless_spec; auto. }
  rewrite webhookHandler_normal. fold path.
  rewrite (webhookHandler_post cfg _ downstream path) by done.
  unfold io_ReadAll. cbn [Body]. rewrite Hbody.
  destruct (triggerBuild _ _ _ _ _ _ _) as [t [[err|]|msg]] eqn:Hrun;
    destruct (logVerbose cfg) eqn:Hv; simpl; rewrite Hjson; simpl;
    rewrite commitShort_returns; simpl; rewrite Hrun; simpl;
    by rewrite ?app_nil_r.
Qed.
End Traces.

(** The run on a body that cannot be read. *)
Lemma webhookHandler_unreadable `{Externals} (cfg : Config) (r : Request)
    (downstream : result DownstreamResponse) (err : error) :
  Method r = http_MethodPost →
  ¬ slugless (URL_Path r) →
  Body r = Err err →
  webhookHandler cfg r downstream
    = ([ReadAll; Printf "❌ Error reading body: %v" [Str err]],
       Return (http_Error "Bad request" http_StatusBadRequest)).
Proof.
  intros Hm Hslug Hbody.
  rewrite webhookHandler_normal.
  rewrite (webhookHandler_post cfg _ downstream
             (strings_TrimPrefix (URL_Path r) "/webhook/")); [| done.. | |].
  - unfold io_ReadAll. cbn [Body]. by rewrite Hbody.
  - intros Hp. apply Hslug, slugless_spec. auto.
  - intros Hp. apply Hslug, slugless_spec. auto.
Qed.

(** X4.  A body that cannot be read: the read error is logged and the
    answer is 400 ["Bad request"]; nothing is decoded and nothing is sent. *)
Theorem unreadable_body_rejected `{Externals} (cfg : Config) (r : Request)
    (downstream : result DownstreamResponse) (err : error) :
  Method r = "POST" →
  ¬ slugless (URL_Path r) →
  Body r = Err err →
  webhookHandler cfg r downstream
    = ([ReadAll; Printf "❌ Error reading body: %v" [Str err]],
       Return (PlainText 400 "Bad request")).
Proof.
  intros Hm Hslug Hbody. by apply webhookHandler_unreadable.
Qed.

Lemma unreadable_body_rejected_witness :
  webhookHandler (H := Double.externals) Double.config Sample.unreadable
      (Double.answers 200 "{}")
    = ([ReadAll; Printf "❌ Error reading body: %v" [Str "unexpected EOF"]],
       Return (PlainText 400 "Bad request")).
Proof.
  apply (unreadable_body_rejected (H := Double.externals) Double.config Sample.unreadable
           (Double.answers 200 "{}") "unexpected EOF").
  - reflexivity.
  - intros Hslugless. apply slugless_spec in Hslugless. vm_compute in Hslugless.
    destruct Hslugless; discriminate.
  - reflexivity.
Defined.

(** X5.  A pipeline slug that makes the builds URL unparsable: the request
    is decoded, [http.NewRequest] fails, nothing is sent, and the answer is
    500 with the parse error. *)
Theorem unparsable_url_answers_500 `{Externals} (cfg : Config) (r : Request)
    (downstream : result DownstreamResponse) (body : string) (webhook : ForgejoWebhook)
    (err : error) :
  Method r = "POST" →
  ¬ slugless (URL_Path r) →
  Body r = Ok body →
  json_Unmarshal body zero_ForgejoWebhook = Ok webhook →
  url_Parse (url cfg (strings_TrimPrefix (URL_Path r) "/webhook/")) = Some err →
  ended (webhookHandler cfg r downstream)
    = Return (PlainText 500
                ("Failed to trigger build: failed to create request: " +:+ err))
  ∧ outbound_calls (trace (webhookHandler cfg r downstream)) = [].
Proof.
  intros Hm Hslug Hbody Hjson Hurl.
  assert (strings_TrimPrefix (URL_Path r) "/webhook/" ≠ ""
          ∧ strings_TrimPrefix (URL_Path r) "/webhook/" ≠ "webhook/") as [Hne Hne'].
  { split; intros Hp; apply Hslug, slugless_spec; auto. }
  apply String.eqb_neq in Hne, Hne'.
  rewrite webhookHandler_ended, webhookHandler_calls. cbv zeta.
  by rewrite Hm, Hne, Hne', Hbody, Hjson, Hurl.
Qed.

Lemma unparsable_url_answers_500_witness :
  ∃ err,
    ended (webhookHandler (H := Double.externals) Double.config
             (Double.post ("/webhook/my" +:+ newline +:+ "pipeline") Double.push_body)
             (Double.answers 200 "{}"))
      = Return (PlainText 500
                  ("Failed to trigger build: failed to create request: " +:+ err))
    ∧ outbound_calls
        (trace (webhookHandler (H := Double.externals) Double.config
                  (Double.post ("/webhook/my" +:+ newline +:+ "pipeline") Double.push_body)
                  (Double.answers 200 "{}")))
      = [].
Proof.
  eexists.
  apply (unparsable_url_answers_500 (H := Double.externals) Double.config
           (Double.post ("/webhook/my" +:+ newline +:+ "pipeline") Double.push_body)
           (Double.answers 200 "{}") Double.push_body Double.push_webhook).
  - reflexivity.
  - intros Hslugless. apply slugless_spec in Hslugless. vm_compute in Hslugless.
    destruct Hslugless; discriminate.
  - reflexivity.
  - reflexivity.
  - vm_compute. reflexivity.
Defined.

(** X6.  With verbose logging the raw body is logged as received, right
    after it is read and before it is decoded, whether or not decoding then
    succeeds. *)
Theorem verbose_logs_raw_body_first `{Externals} (cfg : Config) (r : Request)
    (downstream : result DownstreamResponse) (body : string) :
  logVerbose cfg = true →
  Method r = "POST" →
  ¬ slugless (URL_Path r) →
  Body r = Ok body →
  ∃ rest,
    trace (webhookHandler cfg r downstream)
      = ReadAll :: Printf "📦 Received payload: %s" [Str body] :: Unmarshal body :: rest.
Proof.
  intros Hv Hm Hslug Hbody.
  destruct (json_Unmarshal body zero_ForgejoWebhook) as [webhook | err] eqn:Hjson.
  - rewrite (webhookHandler_decoded_trace cfg r downstream body webhook) by done.
    rewrite Hv. simpl. eauto.
  - rewrite webhookHandler_normal.
    rewrite (webhookHandler_post cfg _ downstream
               (strings_TrimPrefix (URL_Path r) "/webhook/")); [| done.. | |].
    + unfold io_ReadAll. cbn [Body]. rewrite Hbody, Hv. simpl. rewrite Hjson. simpl. eauto.
    + intros Hp. apply Hslug, slugless_spec. auto.
    + intros Hp. apply Hslug, slugless_spec. auto.
Qed.

Lemma verbose_logs_raw_body_first_witness :
  trace (webhookHandler (H := Double.externals) (with_verbose true Double.config)
           (Double.post "/webhook/my-pipeline" "not json") (Double.answers 200 "{}"))
    = [ReadAll; Printf "📦 Received payload: %s" [Str "not json"]; Unmarshal "not json";
       Printf "❌ Error parsing webhook: %v"
         [Str "invalid character 'o' in literal null (expecting 'u')"]].
Proof.
  destruct (verbose_logs_raw_body_first (H := Double.externals)
              (with_verbose true Double.config)
              (Double.post "/webhook/my-pipeline" "not json") (Double.answers 200 "{}")
              "not json") as [rest Hrest].
  - reflexivity.
  - reflexivity.
  - intros Hslugless. apply slugless_spec in Hslugless. vm_compute in Hslugless.
    destruct Hslugless; discriminate.
  - reflexivity.
  - rewrite Hrest. vm_compute in Hrest. injection Hrest as <-. reflexivity.
Defined.

(** ** The order of the effects *)

Section Effects.
Context `{Externals}.
Variable cfg : Config.

Lemma without_logs_app (t1 t2 : list event) :
  without_logs (t1 ++ t2) = without_logs t1 ++ without_logs t2.
Proof. apply omap_app. Qed.

(** Apart from log lines, [triggerBuild] does nothing but its call. *)
Lemma triggerBuild_effects (pipeline br commit message : string) (webhook : ForgejoWebhook)
    (downstream : result DownstreamResponse) :
  without_logs (trace (triggerBuild cfg pipeline br commit message webhook downstream))
    = match url_Parse (url cfg pipeline) with
      | Some _ => []
      | None => [Do (sent cfg pipeline br commit message webhook)]
      end.
Proof.
  rewrite triggerBuild_trace.
  destruct (url_Parse (url cfg pipeline)); [by destruct (logVerbose cfg) |].
  destruct downstream as [[code text] | err]; [| by destruct (logVerbose cfg)].
  cbn [StatusCode respBody].
  destruct (negb _ && negb _); [by destruct (logVerbose cfg) |].
  by destruct (decide (7 ≤ len commit)); destruct (logVerbose cfg).
Qed.

(** The effects of a run other than its log lines, in order. *)
Lemma webhookHandler_effects (r : Request) (downstream : result DownstreamResponse) :
  without_logs (trace (webhookHandler cfg r downstream)) =
    let path := strings_TrimPrefix (URL_Path r) "/webhook/" in
    if negb (String.eqb (Method r) http_MethodPost) then []
    else if String.eqb path "" || String.eqb path "webhook/" then []
    else
      ReadAll
      :: match Body r with
         | Err _ => []
         | Ok body =>
             Unmarshal body
             :: match json_Unmarshal body zero_ForgejoWebhook with
                | Err _ => []
                | Ok webhook =>
                    match url_Parse (url cfg path) with
                    | Some _ => []
                    | None =>
                        [Do (sent cfg path (branch webhook)
                               (HeadCommit.ID (HeadCommit webhook))
                               (HeadCommit.Message (HeadCommit webhook)) webhook)]
                    end
                end
         end.
Proof.
  cbv zeta. set (path := strings_TrimPrefix (URL_Path r) "/webhook/").
  destruct (String.eqb_spec (Method r) http_MethodPost) as [Hm | Hm]; simpl negb; cbv iota.
  2: { by rewrite webhookHandler_not_post. }
  destruct (String.eqb_spec path "") as [Hslug | Hslug]; simpl orb; cbv iota.
  { by rewrite webhookHandler_no_slug. }
  destruct (String.eqb_spec path "webhook/") as [Hslug' | Hslug']; cbv iota.
  { unfold webhookHandler. fold path. by rewrite Hm, Hslug'. }
  assert (¬ slugless (URL_Path r)) as Hno.
  { intros [Hp | Hp]%slugless_spec; by fold path in Hp. }
  destruct (Body r) as [body | err] eqn:Hbody.
  2: { by rewrite (webhookHandler_unreadable cfg r downstream err). }
  destruct (json_Unmarshal body zero_ForgejoWebhook) as [webhook | err] eqn:Hjson.
  - rewrite (webhookHandler_decoded_trace cfg r downstream body webhook) by done.
    cbv zeta. fold path.
    change (ReadAll :: ?l) with ([ReadAll] ++ l).
    rewrite !without_logs_app.
    change (Unmarshal body :: ?p :: ?l) with ([Unmarshal body; p] ++ l).
    rewrite !without_logs_app, triggerBuild_effects.
    destruct (logVerbose cfg); destruct (url_Parse (url cfg path));
      by destruct (ended _) as [[?|]|?].
  - rewrite webhookHandler_normal. fold path.
    rewrite (webhookHandler_post cfg _ downstream path) by done.
    unfold io_ReadAll. cbn [Body]. rewrite Hbody.
    destruct (logVerbose cfg); simpl; by rewrite Hjson.
Qed.
End Effects.

(** X7.  The order of the effects.  Log lines apart, a run reads the body at
    most once and only for a POST that names a pipeline, decodes it only
    once it is read, and calls downstream only once the body is decoded and
    the builds URL parses: read, then decode, then call. *)
Theorem effects_in_order `{Externals} (cfg : Config) (r : Request)
    (downstream : result DownstreamResponse) :
  without_logs (trace (webhookHandler cfg r downstream)) =
    let path := strings_TrimPrefix (URL_Path r) "/webhook/" in
    if negb (String.eqb (Method r) "POST") then []
    else if String.eqb path "" || String.eqb path "webhook/" then []
    else
      ReadAll
      :: match Body r with
         | Err _ => []
         | Ok body =>
             Unmarshal body
             :: match json_Unmarshal body zero_ForgejoWebhook with
                | Err _ => []
                | Ok webhook =>
                    match url_Parse (url cfg path) with
                    | Some _ => []
                    | None =>
                        [Do (sent cfg path (branch webhook)
                               (HeadCommit.ID (HeadCommit webhook))
                               (HeadCommit.Message (HeadCommit webhook)) webhook)]
                    end
                end
         end.
Proof. apply webhookHandler_effects. Qed.

(** X8.  Verbose logging changes the log and nothing else: with the flag
    either way a run ends alike (the same response, or the same panic) and
    its other effects, the read, the decoding and the outbound call, are the
    same. *)
Theorem verbose_changes_only_logs `{Externals} (cfg : Config) (verbose : bool)
    (r : Request) (downstream : result DownstreamResponse) :
  ended (webhookHandler (with_verbose verbose cfg) r downstream)
    = ended (webhookHandler cfg r downstream)
  ∧ without_logs (trace (webhookHandler (with_verbose verbose cfg) r downstream))
    = without_logs (trace (webhookHandler cfg r downstream)).
Proof.
  rewrite !webhookHandler_ended, !webhookHandler_effects. done.
Qed.

(** X9.  The trace of a quiet run that reaches [triggerBuild]: the body is
    read and decoded, the push is logged with the short commit, the call is
    made, and one line tells the outcome, the error or the success.  For a
    commit id of fewer than seven bytes on status 200 or 201 that last line
    is missing: the run panicked. *)
Theorem quiet_trace `{Externals} (cfg : Config) (r : Request)
    (downstream : result DownstreamResponse) (body : string) (webhook : ForgejoWebhook) :
  logVerbose cfg = false →
  Method r = "POST" →
  ¬ slugless (URL_Path r) →
  Body r = Ok body →
  json_Unmarshal body zero_ForgejoWebhook = Ok webhook →
  url_Parse (url cfg (strings_TrimPrefix (URL_Path r) "/webhook/")) = None →
  let path := strings_TrimPrefix (URL_Path r) "/webhook/" in
  let id := HeadCommit.ID (HeadCommit webhook) in
  trace (webhookHandler cfg r downstream) =
    [ReadAll;
     Unmarshal body;
     Printf "📨 Webhook: repo=%s, branch=%s, commit=%s, author=%s"
       [Str (Repository.FullName (Repository webhook)); Str (branch webhook);
        Str (if decide (7 < len id) then first7 id else id);
        Str (Pusher.Username (Pusher webhook))];
     Do (sent cfg path (branch webhook) id (HeadCommit.Message (HeadCommit webhook)) webhook)]
    ++ match downstream with
       | Err err =>
           [Printf "❌ Failed to trigger build: %v" [Str ("request failed: " +:+ err)]]
       | Ok resp =>
           if negb (StatusCode resp =? 201)%Z && negb (StatusCode resp =? 200)%Z
           then
             [Printf "❌ Failed to trigger build: %v"
                [Str ("buildkite API returned " +:+ fmt_d (StatusCode resp) +:+ ": "
                      +:+ respBody resp)]]
           else if decide (7 ≤ len id)
           then
             [Printf "✅ Build triggered: %s/%s (branch: %s, commit: %s)"
                [Str (buildkiteOrg cfg); Str path; Str (branch webhook); Str (first7 id)]]
           else []
       end.
Proof.
  intros Hquiet Hm Hslug Hbody Hjson Hurl path id. subst path id.
  rewrite (webhookHandler_decoded_trace cfg r downstream body webhook) by done.
  cbv zeta. rewrite triggerBuild_trace, Hquiet, Hurl.
  destruct downstream as [[code text] | err].
  - cbn [StatusCode respBody].
    change http_StatusCreated with 201%Z. change http_StatusOK with 200%Z.
    destruct (negb (code =? 201)%Z && negb (code =? 200)%Z) eqn:Htest.
    + rewrite triggerBuild_status_error; [done.. | |]; intros ->; by vm_compute in Htest.
    + apply (status_test code) in Htest.
      destruct (decide (7 ≤ len _)) as [Hlen | Hlen].
      * by rewrite triggerBuild_success.
      * rewrite triggerBuild_short_commit; [done.. | lia].
  - by rewrite triggerBuild_transport_error.
Qed.

Lemma quiet_trace_witness :
  log_lines
    (trace (webhookHandler (H := Double.externals) Double.config
              (Double.post "/webhook/my-pipeline" Double.push_body)
              (Double.answers 201 "{}")))
    = [("📨 Webhook: repo=%s, branch=%s, commit=%s, author=%s"%string,
        [Str "user/my-repo"; Str "main"; Str "abc123d"; Str "john"]);
       ("✅ Build triggered: %s/%s (branch: %s, commit: %s)"%string,
        [Str "my-org"; Str "my-pipeline"; Str "main"; Str "abc123d"])].
Proof.
  rewrite (quiet_trace (H := Double.externals) Double.config
             (Double.post "/webhook/my-pipeline" Double.push_body)
             (Double.answers 201 "{}") Double.push_body Double.push_webhook).
  - reflexivity.
  - reflexivity.
  - reflexivity.
  - intros Hslugless. apply slugless_spec in Hslugless. vm_compute in Hslugless.
    destruct Hslugless; discriminate.
  - reflexivity.
  - reflexivity.
  - reflexivity.
Defined.

(** X10.  The answers of the handler.  A response has status 200, 400, 405
    or 500.  It has status 200 only when the call was made and the
    downstream answered 200 or 201, and it is then the JSON object; every
    other response is plain text. *)
Theorem response_status_codes `{Externals} (cfg : Config) (r : Request)
    (downstream : result DownstreamResponse) (resp : Response) :
  ended (webhookHandler cfg r downstream) = Return resp →
  (status resp = 200%Z ∨ status resp = 400%Z ∨ status resp = 405%Z ∨ status resp = 500%Z)
  ∧ (status resp = 200%Z →
     (∃ object, resp = JSON 200 object)
     ∧ length (outbound_calls (trace (webhookHandler cfg r downstream))) = 1
     ∧ ∃ code text,
         downstream = Ok {| StatusCode := code; respBody := text |}
         ∧ (code = 200%Z ∨ code = 201%Z))
  ∧ (status resp ≠ 200%Z → ∃ message, resp = PlainText (status resp) message).
Proof.
  rewrite webhookHandler_ended, webhookHandler_calls. cbv zeta.
  destruct (negb _); [intros [= <-]; simpl; split; [auto | split; [done | eauto]] |].
  destruct (_ || _); [intros [= <-]; simpl; split; [auto | split; [done | eauto]] |].
  destruct (Body r) as [body | err];
    [| intros [= <-]; simpl; split; [auto | split; [done | eauto]]].
  destruct (json_Unmarshal body zero_ForgejoWebhook) as [webhook | err];
    [| intros [= <-]; simpl; split; [auto | split; [done | eauto]]].
  destruct (url_Parse _) as [err |];
    [intros [= <-]; simpl; split; [auto 6 | split; [done | eauto]] |].
  destruct downstream as [[code text] | err];
    [| intros [= <-]; simpl; split; [auto 6 | split; [done | eauto]]].
  cbn [StatusCode respBody].
  destruct (negb (code =? 201)%Z && negb (code =? 200)%Z) eqn:Htest;
    [intros [= <-]; simpl; split; [auto 6 | split; [done | eauto]] |].
  apply (status_test code) in Htest.
  destruct (decide (7 ≤ _)); [| done].
  intros [= <-]; simpl. split; [auto |]. split; [| done].
  intros _. split; [eauto |]. split; [done |]. eauto.
Qed.

Lemma response_status_codes_witness :
  ∃ code text,
    Double.answers 201 "{}" = Ok {| StatusCode := code; respBody := text |}
    ∧ (code = 200%Z ∨ code = 201%Z).
Proof.
  destruct (response_status_codes (H := Double.externals) Double.config
              (Double.post "/webhook/my-pipeline" Double.push_body)
              (Double.answers 201 "{}")
              (JSON 200
                 {[ "status" := "success";
                    "message" := "Build triggered successfully";
                    "pipeline" := "my-pipeline";
                    "branch" := "main";
                    "commit" := "abc123d" ]}%string))
    as (_ & Hsuccess & _).
  - apply (webhookHandler_success (H := Double.externals) Double.config
             (Double.post "/webhook/my-pipeline" Double.push_body) "my-pipeline"
             Double.push_body Double.push_webhook);
      [reflexivity | reflexivity | discriminate | discriminate | reflexivity
      | reflexivity | reflexivity | by right | simpl; lia].
  - destruct (Hsuccess eq_refl) as (_ & _ & Hdown). exact Hdown.
Defined.

(** X11.  The handler has one panic and no other: a run panics exactly when
    a POST that names a pipeline was read and decoded, the call was made,
    the downstream answered 200 or 201, and the commit id has fewer than
    seven bytes. *)
Theorem panics_only_on_short_commit `{Externals} (cfg : Config) (r : Request)
    (downstream : result DownstreamResponse) (msg : string) :
  ended (webhookHandler cfg r downstream) = Panic msg
  ↔ msg = "slice bounds out of range"
    ∧ Method r = "POST"
    ∧ ¬ slugless (URL_Path r)
    ∧ ∃ body webhook code text,
        Body r = Ok body
        ∧ json_Unmarshal body zero_ForgejoWebhook = Ok webhook
        ∧ url_Parse (url cfg (strings_TrimPrefix (URL_Path r) "/webhook/")) = None
        ∧ downstream = Ok {| StatusCode := code; respBody := text |}
        ∧ (code = 200%Z ∨ code = 201%Z)
        ∧ len (HeadCommit.ID (HeadCommit webhook)) < 7.
Proof.
  rewrite webhookHandler_ended. cbv zeta. split.
  - destruct (String.eqb_spec (Method r) http_MethodPost) as [Hm | Hm]; simpl negb;
      cbv iota; [| done].
    destruct (String.eqb_spec (strings_TrimPrefix (URL_Path r) "/webhook/") "")
      as [Hslug | Hslug]; simpl orb; cbv iota; [done |].
    destruct (String.eqb_spec (strings_TrimPrefix (URL_Path r) "/webhook/") "webhook/")
      as [Hslug' | Hslug']; cbv iota; [done |].
    destruct (Body r) as [body | err]; [| done].
    destruct (json_Unmarshal body zero_ForgejoWebhook) as [webhook | err] eqn:Hjson;
      [| done].
    destruct (url_Parse _) as [err |]; [done |].
    destruct downstream as [[code text] | err]; [| done].
    cbn [StatusCode respBody].
    destruct (negb (code =? 201)%Z && negb (code =? 200)%Z) eqn:Htest; [done |].
    apply (status_test code) in Htest.
    destruct (decide (7 ≤ _)) as [Hlen | Hlen]; [done |].
    intros [= <-]. split; [done |]. split; [done |]. split.
    + intros [Hp | Hp]%slugless_spec; congruence.
    + exists body, webhook, code, text.
      split; [done |]. split; [done |]. split; [done |]. split; [done |].
      split; [done | lia].
  - intros (-> & Hm & Hslug & body & webhook & code & text
            & Hbody & Hjson & Hurl & -> & Hcode & Hlen).
    assert (strings_TrimPrefix (URL_Path r) "/webhook/" ≠ ""
            ∧ strings_TrimPrefix (URL_Path r) "/webhook/" ≠ "webhook/") as [Hne Hne'].
    { split; intros Hp; apply Hslug, slugless_spec; auto. }
    apply String.eqb_neq in Hne, Hne'.
    rewrite Hm, Hne, Hne', Hbody, Hjson, Hurl. cbn [StatusCode respBody].
    apply (status_test code) in Hcode.
    change http_StatusCreated with 201%Z in Hcode. change http_StatusOK with 200%Z in Hcode.
    rewrite Hcode. simpl negb. simpl orb. cbv iota.
    destruct (decide (7 ≤ _)); [lia | done].
Qed.

Lemma panics_only_on_short_commit_witness :
  ended (webhookHandler (H := Double.externals) Double.config
           (Double.post "/webhook/my-pipeline" Double.short_body)
           (Double.answers 201 "{}"))
    = Panic "slice bounds out of range".
Proof.
  apply (panics_only_on_short_commit (H := Double.externals)).
  split; [reflexivity |]. split; [reflexivity |]. split.
  - intros Hslugless. apply slugless_spec in Hslugless. vm_compute in Hslugless.
    destruct Hslugless; discriminate.
  - exists Double.short_body,
      (Double.with_ref_and_id "refs/heads/main" "abc" zero_ForgejoWebhook), 201%Z, "{}"%string.
    split; [reflexivity |]. split; [reflexivity |]. split; [reflexivity |].
    split; [reflexivity |]. split; [by right | simpl; lia].
Defined.

(** X12.  What the downstream says on success is not passed on: for status
    200 and for status 201, and whatever the body of the downstream
    response, the run ends alike. *)
Theorem success_ignores_downstream_body `{Externals} (cfg : Config) (r : Request)
    (code code' : Z) (text text' : string) :
  code = 200%Z ∨ code = 201%Z →
  code' = 200%Z ∨ code' = 201%Z →
  ended (webhookHandler cfg r (Ok {| StatusCode := code; respBody := text |}))
    = ended (webhookHandler cfg r (Ok {| StatusCode := code'; respBody := text' |})).
Proof.
  intros Hcode Hcode'. rewrite !webhookHandler_ended. cbv zeta.
  cbn [StatusCode respBody].
  apply (status_test code) in Hcode. apply (status_test code') in Hcode'.
  change http_StatusCreated with 201%Z in Hcode, Hcode'.
  change http_StatusOK with 200%Z in Hcode, Hcode'.
  by rewrite Hcode, Hcode'.
Qed.

Lemma success_ignores_downstream_body_witness :
  ended (webhookHandler (H := Double.externals) Double.config
           (Double.post "/webhook/my-pipeline" Double.push_body)
           (Double.answers 200 "{}"))
    = ended (webhookHandler (H := Double.externals) Double.config
               (Double.post "/webhook/my-pipeline" Double.push_body)
               (Double.answers 201 (Double.quoted "{'number':42,'state':'scheduled'}"))).
Proof.
  apply (success_ignores_downstream_body (H := Double.externals)); [by left | by right].
Defined.

(** X13.  The [env] of the payload always has its three entries, also for a
    webhook whose pusher and repository are empty: [omitempty] never drops
    it.  In the document the entries come sorted by key. *)
Theorem env_always_sent (br commit message : string) (webhook : ForgejoWebhook) :
  size (Env (payload br commit message webhook)) = 3
  ∧ dom (Env (payload br commit message webhook))
    = ({[ "FORGEJO_PUSHER"; "FORGEJO_REPO"; "FORGEJO_REPO_NAME" ]} : gset string)
  ∧ marshal_map (Env (payload br commit message webhook))
    = JObject
        [("FORGEJO_PUSHER", JString (Pusher.Username (Pusher webhook)));
         ("FORGEJO_REPO", JString (Repository.FullName (Repository webhook)));
         ("FORGEJO_REPO_NAME", JString (Repository.Name (Repository webhook)))]%string
  ∧ ∃ before,
      json_Marshal (payload br commit message webhook)
      = JObject (before
                 ++ [("env"%string, marshal_map (Env (payload br commit message webhook)))]).
Proof.
  destruct webhook as [ref [name full] [id msg [aname aemail auser]] [pusher]].
  split; [by vm_compute |]. split; [| split; [by vm_compute |]].
  - unfold payload, Env. rewrite !dom_insert_L, dom_singleton_L. set_solver.
  - eexists. unfold json_Marshal.
    destruct (decide (size _ = 0)) as [Hsize | _]; [by vm_compute in Hsize |].
    cbn [Author payload]. rewrite app_assoc. reflexivity.
Qed.

(** * Startup *)

Section Startup.
Variable godotenv_Load : gmap string string → gmap string string.

(** A variable reads as empty when it is not set or set to the empty
    string. *)
Lemma os_Getenv_empty (environ : gmap string string) (key : string) :
  os_Getenv environ key = "" ↔ environ !! key = None ∨ environ !! key = Some ""%string.
Proof.
  unfold os_Getenv. destruct (environ !! key) as [value |]; simpl.
  - split; [intros ->; by right | by intros [? | [= ->]]].
  - split; [by left | done].
Qed.

Lemma os_Getenv_set (environ : gmap string string) (key value : string) :
  environ !! key = Some value → os_Getenv environ key = value.
Proof. unfold os_Getenv. by intros ->. Qed.

(** [getEnv] falls back exactly when the variable reads as empty. *)
Lemma getEnv_spec (environ : gmap string string) (key fallback : string) :
  getEnv environ key fallback
    = if decide (os_Getenv environ key = "") then fallback else os_Getenv environ key.
Proof.
  unfold getEnv. destruct (String.eqb_spec (os_Getenv environ key) "") as [Heq | Hne];
    simpl; by destruct (decide _).
Qed.

(** [main] on an environment that lacks a credential. *)
Lemma main_fatal (environ : gmap string string) (listen : option error) :
  os_Getenv (godotenv_Load environ) "BUILDKITE_ORG" = ""
  ∨ os_Getenv (godotenv_Load environ) "BUILDKITE_TOKEN" = "" →
  (main godotenv_Load environ listen).2
    = ([],
       Fatal ("Error: BUILDKITE_ORG and BUILDKITE_TOKEN environment variables must be set"
              +:+ newline
              +:+ "Get token from: https://buildkite.com/user/api-access-tokens (requires write_builds scope)")).
Proof.
  intros Hmissing. unfold main. cbn [buildkiteOrg buildkiteToken].
  destruct (String.eqb_spec (os_Getenv (godotenv_Load environ) "BUILDKITE_ORG") "");
    [done |].
  destruct (String.eqb_spec (os_Getenv (godotenv_Load environ) "BUILDKITE_TOKEN") "");
    [done |].
  by destruct Hmissing.
Qed.

(** [main] on an environment that has both credentials. *)
Lemma main_started (environ : gmap string string) (listen : option error) :
  os_Getenv (godotenv_Load environ) "BUILDKITE_ORG" ≠ "" →
  os_Getenv (godotenv_Load environ) "BUILDKITE_TOKEN" ≠ "" →
  let cfg := (main godotenv_Load environ listen).1 in
  (main godotenv_Load environ listen).2
    = ([HandleFunc "/webhook/" webhookHandler_func;
        HandleFunc "/health" healthHandler_func;
        HandleFunc "/" rootHandler_func;
        Logf "🚀 Buildkite-Forgejo Webhook Bridge v%s" [Str version];
        Logf "📡 Listening on port %s" [Str (port cfg)];
        Logf "🏢 Buildkite organization: %s" [Str (buildkiteOrg cfg)];
        Logf "📝 Verbose logging: %v" [Str (fmt_v_bool (logVerbose cfg))];
        Println;
        Logf "Configure Forgejo webhook to: http://your-host:%s/webhook/<pipeline-slug>"
          [Str (port cfg)];
        Logf "Example: http://your-host:%s/webhook/my-app" [Str (port cfg)];
        Println;
        ListenAndServe (":" +:+ port cfg)],
       match listen with
       | Some err => Fatal err
       | None => Returned
       end).
Proof.
  intros Horg Htoken. unfold main. cbn [buildkiteOrg buildkiteToken].
  apply String.eqb_neq in Horg, Htoken. by rewrite Horg, Htoken.
Qed.

(** The configuration [main] assigns, whether or not it goes on. *)
Lemma main_config (environ : gmap string string) (listen : option error) :
  (main godotenv_Load environ listen).1
    = {| buildkiteOrg := os_Getenv (godotenv_Load environ) "BUILDKITE_ORG";
         buildkiteToken := os_Getenv (godotenv_Load environ) "BUILDKITE_TOKEN";
         port := getEnv (godotenv_Load environ) "WEBHOOK_PORT" "8080";
         logVerbose :=
           String.eqb (getEnv (godotenv_Load environ) "LOG_VERBOSE" "false") "true" |}.
Proof. unfold main. by destruct (_ || _). Qed.
End Startup.

(** X14.  [main] refuses to start without credentials.  When the
    organization or the token is not set, or set to the empty string, in the
    environment left by [godotenv.Load], [main] ends in [log.Fatal] before
    it registers a route or listens; otherwise it registers and listens. *)
Theorem main_refuses_without_credentials
    (godotenv_Load : gmap string string → gmap string string)
    (environ : gmap string string) (listen : option error) :
  let loaded := godotenv_Load environ in
  let missing key := loaded !! key = None ∨ loaded !! key = Some ""%string in
  (missing "BUILDKITE_ORG"%string ∨ missing "BUILDKITE_TOKEN"%string
   ↔ (main godotenv_Load environ listen).2.1 = [])
  ∧ (missing "BUILDKITE_ORG"%string ∨ missing "BUILDKITE_TOKEN"%string
     ↔ ∃ message,
         (main godotenv_Load environ listen).2 = ([], Fatal message)
         ∧ contains message "BUILDKITE_ORG and BUILDKITE_TOKEN environment variables must be set").
Proof.
  intros loaded missing.
  assert (missing "BUILDKITE_ORG"%string ∨ missing "BUILDKITE_TOKEN"%string
          ↔ os_Getenv loaded "BUILDKITE_ORG" = "" ∨ os_Getenv loaded "BUILDKITE_TOKEN" = "")
    as ->.
  { unfold missing. by rewrite !os_Getenv_empty. }
  destruct (decide (os_Getenv loaded "BUILDKITE_ORG" = "")) as [Horg | Horg].
  { rewrite (main_fatal godotenv_Load environ listen) by auto. simpl. split; [tauto |].
    split; [intros _ | auto]. eexists. split; [done |].
    by exists "Error: "%string,
      (newline
       +:+ "Get token from: https://buildkite.com/user/api-access-tokens (requires write_builds scope)"). }
  destruct (decide (os_Getenv loaded "BUILDKITE_TOKEN" = "")) as [Htoken | Htoken].
  { rewrite (main_fatal godotenv_Load environ listen) by auto. simpl. split; [tauto |].
    split; [intros _ | auto]. eexists. split; [done |].
    by exists "Error: "%string,
      (newline
       +:+ "Get token from: https://buildkite.com/user/api-access-tokens (requires write_builds scope)"). }
  rewrite (main_started godotenv_Load environ listen) by done. simpl.
  split; (split; [tauto |]); [done |]. by intros (message & [=] & _).
Qed.

(** X15.  The configuration of a bridge that starts.  With both credentials
    set and not empty, the organization and the token are those of the
    environment; the port is [WEBHOOK_PORT], and 8080 when that is not set or
    empty, so it is never empty; logging is verbose exactly when
    [LOG_VERBOSE] is the string [true]; the three routes are registered
    before anything is logged, the last thing [main] does is to listen on
    [:<port>], and it exits only if listening returns an error. *)
Theorem main_serves (godotenv_Load : gmap string string → gmap string string)
    (environ : gmap string string) (listen : option error) (org token : string) :
  godotenv_Load environ !! "BUILDKITE_ORG" = Some org → org ≠ "" →
  godotenv_Load environ !! "BUILDKITE_TOKEN" = Some token → token ≠ "" →
  let loaded := godotenv_Load environ in
  let cfg := (main godotenv_Load environ listen).1 in
  let events := (main godotenv_Load environ listen).2.1 in
  buildkiteOrg cfg = org
  ∧ buildkiteToken cfg = token
  ∧ port cfg = match loaded !! "WEBHOOK_PORT" with
               | Some value => if decide (value = "") then "8080" else value
               | None => "8080"
               end
  ∧ port cfg ≠ ""
  ∧ (logVerbose cfg = true ↔ loaded !! "LOG_VERBOSE" = Some "true")
  ∧ take 3 events
    = [HandleFunc "/webhook/" webhookHandler_func;
       HandleFunc "/health" healthHandler_func;
       HandleFunc "/" rootHandler_func]
  ∧ last events = Some (ListenAndServe (":" +:+ port cfg))
  ∧ (main godotenv_Load environ listen).2.2
    = match listen with
      | Some err => Fatal err
      | None => Returned
      end.
Proof.
  intros Horg Hnorg Htoken Hntoken loaded cfg events.
  assert (os_Getenv loaded "BUILDKITE_ORG" = org) as Horg' by by apply os_Getenv_set.
  assert (os_Getenv loaded "BUILDKITE_TOKEN" = token) as Htoken' by by apply os_Getenv_set.
  assert (port cfg = match loaded !! "WEBHOOK_PORT" with
                     | Some value => if decide (value = "") then "8080" else value
                     | None => "8080"
                     end) as Hport.
  { unfold cfg. rewrite main_config. cbn [port]. rewrite getEnv_spec. unfold os_Getenv.
    fold loaded. by destruct (loaded !! "WEBHOOK_PORT") as [value |]. }
  subst events. unfold loaded in Horg', Htoken'.
  rewrite (main_started godotenv_Load environ listen) by congruence.
  fold cfg. cbn [fst snd take last].
  split; [by unfold cfg; rewrite main_config |].
  split; [by unfold cfg; rewrite main_config |].
  split; [done |]. split.
  { rewrite Hport. destruct (loaded !! "WEBHOOK_PORT") as [value |]; [| done].
    by destruct (decide (value = "")). }
  split; [| done].
  unfold cfg. rewrite main_config. cbn [logVerbose]. rewrite String.eqb_eq, getEnv_spec.
  unfold os_Getenv. fold loaded.
  destruct (loaded !! "LOG_VERBOSE") as [value |]; simpl.
  - destruct (decide (value = "")) as [-> | Hne]; [done |].
    split; [by intros -> | by intros [= ->]].
  - done.
Qed.

Lemma main_serves_witness :
  (main Sample.no_dotenv Sample.environ None).1
    = {| buildkiteOrg := "my-org"; buildkiteToken := "bkua_0123456789abcdef";
         port := "8080"; logVerbose := false |}
  ∧ port (main Sample.no_dotenv Sample.environ_9000 None).1 = "9000"
  ∧ last (main Sample.no_dotenv Sample.environ_9000 None).2.1
    = Some (ListenAndServe ":9000").
Proof.
  destruct (main_serves Sample.no_dotenv Sample.environ_9000 None
              "my-org" "bkua_0123456789abcdef")
    as (_ & _ & Hport & _ & _ & _ & Hlast & _);
    [reflexivity | discriminate | reflexivity | discriminate |].
  split; [reflexivity |]. split; [by rewrite Hport |].
  rewrite Hlast, Hport. reflexivity.
Defined.

(** X16.  Startup never logs the token.  Two environments that differ in
    [BUILDKITE_TOKEN] alone, the token not being empty in either, give the
    same events, log lines included, and the same exit. *)
Theorem startup_never_logs_token (godotenv_Load : gmap string string → gmap string string)
    (environ environ' : gmap string string) (listen : option error) :
  (∀ key, key ≠ "BUILDKITE_TOKEN"%string →
          godotenv_Load environ !! key = godotenv_Load environ' !! key) →
  os_Getenv (godotenv_Load environ) "BUILDKITE_TOKEN" ≠ "" →
  os_Getenv (godotenv_Load environ') "BUILDKITE_TOKEN" ≠ "" →
  (main godotenv_Load environ listen).2 = (main godotenv_Load environ' listen).2.
Proof.
  intros Hsame Htoken Htoken'.
  assert (∀ key, key ≠ "BUILDKITE_TOKEN"%string →
                 os_Getenv (godotenv_Load environ) key
                 = os_Getenv (godotenv_Load environ') key) as Hget.
  { intros key Hkey. unfold os_Getenv. by rewrite Hsame. }
  destruct (decide (os_Getenv (godotenv_Load environ) "BUILDKITE_ORG" = ""))
    as [Horg | Horg].
  - rewrite !main_fatal; [done | left | by left]. by rewrite <- Hget.
  - rewrite !main_started; [| by rewrite <- Hget | done..].
    rewrite !main_config. cbn [port buildkiteOrg logVerbose]. unfold getEnv.
    by rewrite !(Hget "BUILDKITE_ORG"%string), !(Hget "WEBHOOK_PORT"%string),
      !(Hget "LOG_VERBOSE"%string).
Qed.

Lemma startup_never_logs_token_witness :
  (main Sample.no_dotenv Sample.environ None).2
    = (main Sample.no_dotenv
         (<["BUILDKITE_TOKEN" := "bkua_another"]> Sample.environ) None).2.
Proof.
  apply (startup_never_logs_token Sample.no_dotenv).
  - intros key Hkey. unfold Sample.no_dotenv. by rewrite lookup_insert_ne.
  - discriminate.
  - discriminate.
Defined.

(** * The static handlers *)

(** X17.  The health check reports the organization of the environment.
    Whatever the request, its method included, [healthHandler] answers 200
    with the object of status, version and organization, the organization
    being [BUILDKITE_ORG] as [main] read it; it reads no body, logs nothing,
    calls nothing, and the token is no part of the answer. *)
Theorem health_reports_organization
    (godotenv_Load : gmap string string → gmap string string)
    (environ : gmap string string) (listen : option error) (org : string) (r : Request) :
  godotenv_Load environ !! "BUILDKITE_ORG" = Some org →
  healthHandler (main godotenv_Load environ listen).1 r
    = ([], Return (JSON 200 {[ "status" := "healthy"; "version" := "1.0.0"; "org" := org ]}))
  ∧ ∀ token,
      healthHandler (with_token token (main godotenv_Load environ listen).1) r
      = healthHandler (main godotenv_Load environ listen).1 r.
Proof.
  intros Horg. rewrite main_config. split; [| done].
  unfold healthHandler. cbn [buildkiteOrg]. by rewrite (os_Getenv_set _ _ org).
Qed.

Lemma health_reports_organization_witness :
  healthHandler (main Sample.no_dotenv Sample.environ None).1
      (Double.post "/health" "anything")
    = ([], Return (JSON 200
                     {[ "status" := "healthy"; "version" := "1.0.0"; "org" := "my-org" ]})).
Proof.
  apply (health_reports_organization Sample.no_dotenv Sample.environ None "my-org").
  reflexivity.
Defined.

(** X18.  The status page.  Whatever the request, [rootHandler] answers 200
    with an HTML page and does nothing else; the page carries the version,
    the organization and the port as they are, without escaping, and is the
    same under any token. *)
Theorem root_page_shows_configuration (cfg : Config) (r : Request) :
  ∃ page,
    rootHandler cfg r = ([], Return page)
    ∧ page_status page = 200%Z
    ∧ page_ContentType page = "text/html"
    ∧ contains (page_body page) version
    ∧ contains (page_body page) (buildkiteOrg cfg)
    ∧ contains (page_body page) (port cfg)
    ∧ len (page_body page)
      = 1508 + len version + len (buildkiteOrg cfg) + 2 * len (port cfg)
    ∧ ∀ token r', rootHandler (with_token token cfg) r' = rootHandler cfg r.
Proof.
  eexists. split; [reflexivity |]. split; [done |]. split; [done |].
  cbn [page_body]. split; [| split; [| split; [| split; [| done]]]].
  - apply contains_middle.
  - do 2 apply contains_append. apply contains_middle.
  - do 4 apply contains_append. apply contains_middle.
  - rewrite !len_append. replace (len page_head) with 645 by (by vm_compute).
    replace (len page_org) with 86 by (by vm_compute).
    replace (len page_url) with 71 by (by vm_compute).
    replace (len page_steps) with 251 by (by vm_compute).
    replace (len page_tail) with 455 by (by vm_compute).
    lia.
Qed.

(** * Downstream failures *)

(** X19.  A downstream failure reaches the caller with its cause.  Once the
    call is made, a status other than 200 and 201 makes [triggerBuild]
    return [buildkite API returned <status>: <body>], and a transport
    failure [request failed: <error>]; the handler answers 500 with
    ["Failed to trigger build: "] before that text, so the message contains
    the downstream status and body, or the transport error. *)
Theorem downstream_failure_surfaces `{Externals} (cfg : Config) (r : Request)
    (pipeline body : string) (webhook : ForgejoWebhook) :
  Method r = "POST" →
  URL_Path r = "/webhook/" +:+ pipeline →
  pipeline ≠ "" → pipeline ≠ "webhook/" →
  Body r = Ok body →
  json_Unmarshal body zero_ForgejoWebhook = Ok webhook →
  url_Parse (url cfg pipeline) = None →
  let build :=
    triggerBuild cfg pipeline (branch webhook) (HeadCommit.ID (HeadCommit webhook))
      (HeadCommit.Message (HeadCommit webhook)) webhook in
  let handle := webhookHandler cfg r in
  (∀ code text, code ≠ 200%Z → code ≠ 201%Z →
     let downstream := Ok {| StatusCode := code; respBody := text |} in
     let err := "buildkite API returned " +:+ fmt_d code +:+ ": " +:+ text in
     ended (build downstream) = Return (Some err)
     ∧ ended (handle downstream)
       = Return (PlainText 500 ("Failed to trigger build: " +:+ err))
     ∧ contains ("Failed to trigger build: " +:+ err) (fmt_d code)
     ∧ contains ("Failed to trigger build: " +:+ err) text)
  ∧ (∀ failure,
     let err := "request failed: " +:+ failure in
     ended (build (Err failure)) = Return (Some err)
     ∧ ended (handle (Err failure))
       = Return (PlainText 500 ("Failed to trigger build: " +:+ err))
     ∧ contains ("Failed to trigger build: " +:+ err) failure).
Proof.
  intros Hmethod Hpath Hslug Hslug' Hbody Hjson Hurl build handle. split.
  - intros code text H200 H201 downstream err. split; [| split; [| split]].
    + by apply triggerBuild_status_error.
    + by apply (webhookHandler_status_error cfg r pipeline body webhook).
    + apply contains_append, contains_middle.
    + do 3 apply contains_append. apply contains_end.
  - intros failure err. split; [| split].
    + by apply triggerBuild_transport_error.
    + by apply (webhookHandler_transport_error cfg r pipeline body webhook).
    + apply contains_append, contains_end.
Qed.

Lemma downstream_failure_surfaces_witness :
  ended (webhookHandler (H := Double.externals) Double.config
           (Double.post "/webhook/my-pipeline" Double.push_body)
           (Double.answers 422 (Double.quoted "{'message':'no commit found'}")))
    = Return (PlainText 500
                ("Failed to trigger build: buildkite API returned 422: "
                 +:+ Double.quoted "{'message':'no commit found'}"))
  ∧ contains ("Failed to trigger build: buildkite API returned 422: "
              +:+ Double.quoted "{'message':'no commit found'}") "422"
  ∧ contains ("Failed to trigger build: buildkite API returned 422: "
              +:+ Double.quoted "{'message':'no commit found'}")
      (Double.quoted "{'message':'no commit found'}")
  ∧ ended (webhookHandler (H := Double.externals) Double.config
             (Double.post "/webhook/my-pipeline" Double.push_body)
             (Err "dial tcp: connection refused"))
    = Return (PlainText 500
                "Failed to trigger build: request failed: dial tcp: connection refused").
Proof.
  destruct (downstream_failure_surfaces (H := Double.externals) Double.config
              (Double.post "/webhook/my-pipeline" Double.push_body)
              "my-pipeline" Double.push_body Double.push_webhook)
    as (Hstatus & Htransport);
    [reflexivity | reflexivity | discriminate | discriminate
    | reflexivity | reflexivity | reflexivity |].
  destruct (Hstatus 422%Z (Double.quoted "{'message':'no commit found'}"))
    as (_ & Hanswer & Hcode & Htext); [lia | lia |].
  destruct (Htransport "dial tcp: connection refused"%string) as (_ & Hfailed & _).
  exact (conj Hanswer (conj Hcode (conj Htext Hfailed))).
Defined.
